(** * Ledger reconciliation of the dairy-delivery application

    A shallow embedding of the client-side reconciliation code:
    the payment allocator ([handleSavePayment], customer detail page),
    the order aggregator ([customerDailySummaries], daily orders page, and
    [getDailySummariesForStatement], statement page), the statement
    generator ([generateStatementData]) and the box calculator
    ([calculateBoxNeeds]).

    Conventions.  A JavaScript number that is stored in the database or
    derived from stored values is an exact integer [Z] (amounts in the
    smallest currency unit, quantities in pieces): IEEE rounding is not
    modelled.  The value of [parseFloat], which may be [NaN] or infinite,
    is a [num].  A JavaScript object used as a dictionary whose keys are
    not array indices enumerates in insertion order and is an association
    list.  [Array.prototype.sort] is stable and is an insertion sort. *)

From Stdlib Require Import ZArith List String Ascii Bool Lia.
From Stdlib Require Import Permutation Sorted DecimalString DecimalZ.
Import ListNotations.

Local Open Scope Z_scope.

(** ** JavaScript numbers coming from user input *)

Inductive num : Type :=
| NaN
| NegInf
| Fin (z : Z)
| PosInf.

Definition isNaN (x : num) : bool :=
  match x with NaN => true | _ => false end.

(** [a <= b] of JavaScript: false as soon as one side is [NaN]. *)
Definition nle (a b : num) : bool :=
  match a, b with
  | NaN, _ | _, NaN => false
  | NegInf, _ => true
  | _, PosInf => true
  | Fin x, Fin y => x <=? y
  | _, _ => false
  end.

(** [a > b] of JavaScript. *)
Definition ngt (a b : num) : bool :=
  match a, b with
  | NaN, _ | _, NaN => false
  | PosInf, PosInf => false
  | PosInf, _ => true
  | NegInf, _ => false
  | Fin _, NegInf => true
  | Fin x, Fin y => y <? x
  | Fin _, PosInf => false
  end.

(** [Math.min(a, b)]. *)
Definition nmin (a b : num) : num :=
  match a, b with
  | NaN, _ | _, NaN => NaN
  | NegInf, _ | _, NegInf => NegInf
  | PosInf, y => y
  | x, PosInf => x
  | Fin x, Fin y => Fin (Z.min x y)
  end.

Definition nadd (a b : num) : num :=
  match a, b with
  | NaN, _ | _, NaN => NaN
  | PosInf, NegInf | NegInf, PosInf => NaN
  | PosInf, _ | _, PosInf => PosInf
  | NegInf, _ | _, NegInf => NegInf
  | Fin x, Fin y => Fin (x + y)
  end.

Definition nneg (a : num) : num :=
  match a with
  | NaN => NaN
  | NegInf => PosInf
  | PosInf => NegInf
  | Fin x => Fin (- x)
  end.

Definition nsub (a b : num) : num := nadd a (nneg b).


(** ** Arrays *)

(** [xs.reduce((sum, x) => sum + f(x), 0)]. *)
Definition sum_by {A : Type} (f : A -> Z) (xs : list A) : Z :=
  fold_left (fun sum x => sum + f x) xs 0.

Section Sorting.
Context {A : Type}.
(** The comparator of [sort]: negative when the first argument goes
    first, positive when the second does. *)
Variable cmp : A -> A -> Z.

Fixpoint sort_insert (x : A) (l : list A) : list A :=
  match l with
  | [] => [x]
  | y :: l' => if cmp x y <=? 0 then x :: y :: l' else y :: sort_insert x l'
  end.

(** [l.sort(cmp)]: the stable sort of [l]. *)
Definition sort_by (l : list A) : list A :=
  fold_right sort_insert [] l.
End Sorting.

(** ** Objects used as dictionaries *)

Section Dictionary.
Context {V : Type}.

(** [if (!acc[k]) acc[k] = fresh; else acc[k] = f(acc[k])]: a present
    key is updated in place, a new key is appended. *)
Fixpoint upsert (k : string) (fresh : V) (f : V -> V)
         (acc : list (string * V)) : list (string * V) :=
  match acc with
  | [] => [(k, fresh)]
  | (k', v) :: rest =>
      if String.eqb k' k then (k', f v) :: rest
      else (k', v) :: upsert k fresh f rest
  end.

(** [Object.values(acc)]. *)
Definition values (acc : list (string * V)) : list V := map snd acc.
End Dictionary.

(** The loop [for (x of l) { if (!acc[key(x)]) acc[key(x)] = ...; ... }]
    that fills a dictionary, under one name for the proofs; the
    dictionaries below are instances of it. *)
Definition group_fold {A V : Type} (key : A -> string) (fresh : A -> V)
           (f : A -> V -> V) (l : list A) : list (string * V) :=
  fold_left (fun acc x => upsert (key x) (fresh x) (f x) acc) l [].

(** ** Entities *)

Module Types.

(** Modelled from the spec: the [OrderItem] interface of the types module,
    which is not among the sources; the fields are those the code reads. *)
Record OrderItem : Type := {
  product_id : string;
  product_name : string;
  quantity : Z;
  unit : string;
  price : Z;
  total : Z
}.

(** Modelled from the spec: the [DailyOrder] interface of the types module,
    which is not among the sources; the fields are those the code reads.
    [amount_paid] may be absent ([None]), which the code reads as
    [o.amount_paid || 0]; [created_at] is the time value of
    [new Date(o.created_at)]. *)
Record DailyOrder : Type := {
  id : string;
  customer_id : string;
  customer_name : string;
  date : string;
  items : list OrderItem;
  total_amount : Z;
  amount_paid : option Z;
  status : string;
  created_at : Z
}.

(** [o.amount_paid || 0]. *)
Definition paid_or_0 (o : DailyOrder) : Z :=
  match amount_paid o with
  | Some p => p
  | None => 0
  end.

End Types.
Import Types.

(** The comparator [new Date(a).getTime() - new Date(b).getTime()], where
    [getTime] is the time value of a date string and [None] stands for an
    invalid date; [sort] reads a [NaN] result as zero. *)
Definition by_time (getTime : string -> option Z) (a b : string) : Z :=
  match getTime a, getTime b with
  | Some x, Some y => x - y
  | _, _ => 0
  end.

(** ** Customer detail page: daily summaries and payment recording *)

Module CustomerDetail.

Record DailySummary : Type := {
  date : string;
  orders : list DailyOrder;
  totalAmount : Z;
  totalPaid : Z;
  balance : Z;
  allItems : list OrderItem
}.

Record Update : Type := {
  orderId : string;
  newAmountPaid : num
}.

(** What one click on "Save Payment" does. *)
Inductive Outcome : Type :=
| NoSummary                        (* no summary selected: nothing happens *)
| InvalidAmount                    (* alert: enter a valid payment amount *)
| Declined                         (* the overpayment was not confirmed *)
| Saved (updates : list Update).   (* one [updateOrder] call per update *)

Section Summaries.
Variable getTime : string -> option Z.

Definition customerOrders (orders : list DailyOrder) (cid : string)
  : list DailyOrder :=
  sort_by (fun a b => by_time getTime (Types.date b) (Types.date a))
          (filter (fun o => String.eqb (customer_id o) cid) orders).

Definition empty_summary (d : string) : DailySummary :=
  {| date := d; orders := []; totalAmount := 0; totalPaid := 0;
     balance := 0; allItems := [] |}.

Definition add_order (order : DailyOrder) (s : DailySummary)
  : DailySummary :=
  {| date := date s;
     orders := orders s ++ [order];
     totalAmount := totalAmount s + total_amount order;
     totalPaid := totalPaid s + paid_or_0 order;
     balance := balance s;
     allItems := allItems s ++ items order |}.

Definition groupedByDate (customerOrders : list DailyOrder)
  : list (string * DailySummary) :=
  fold_left
    (fun acc order =>
       let d := Types.date order in
       upsert d (add_order order (empty_summary d)) (add_order order) acc)
    customerOrders [].

Definition with_balance (s : DailySummary) : DailySummary :=
  {| date := date s; orders := orders s; totalAmount := totalAmount s;
     totalPaid := totalPaid s;
     balance := totalAmount s - totalPaid s;
     allItems := allItems s |}.

Definition dailySummaries (customerOrders : list DailyOrder)
  : list DailySummary :=
  sort_by (fun a b => by_time getTime (date b) (date a))
          (map with_balance (values (groupedByDate customerOrders))).
End Summaries.

Definition pendingOrders (s : DailySummary) : list DailyOrder :=
  sort_by (fun a b => created_at a - created_at b)
          (filter (fun o => 0 <? total_amount o - paid_or_0 o) (orders s)).

(** The [for] loop over the pending orders; it returns the updates and
    what is left of [amountToPay]. *)
Fixpoint pay_loop (pending : list DailyOrder) (amountToPay : num)
         (updates : list Update) : list Update * num :=
  match pending with
  | [] => (updates, amountToPay)
  | order :: rest =>
      if nle amountToPay (Fin 0) then (updates, amountToPay)
      else
        let orderBalance := total_amount order - paid_or_0 order in
        let paymentForOrder := nmin amountToPay (Fin orderBalance) in
        pay_loop rest (nsub amountToPay paymentForOrder)
          (updates ++
             [{| orderId := id order;
                 newAmountPaid :=
                   nadd (Fin (paid_or_0 order)) paymentForOrder |}])
  end.

(** [lastUpdate.newAmountPaid += amountToPay]. *)
Definition bump_last (updates : list Update) (amountToPay : num)
  : list Update :=
  match rev updates with
  | [] => updates
  | lastUpdate :: before =>
      rev before ++
        [{| orderId := orderId lastUpdate;
            newAmountPaid := nadd (newAmountPaid lastUpdate) amountToPay |}]
  end.

(** The body of the [try] block: the list of [updateOrder] calls. *)
Definition allocate (s : DailySummary) (amountToPay : num) : list Update :=
  let '(updates, amountToPay) := pay_loop (pendingOrders s) amountToPay [] in
  if ngt amountToPay (Fin 0) && (0 <? List.length updates)%nat then
    bump_last updates amountToPay
  else if ngt amountToPay (Fin 0) then
    match sort_by (fun a b => created_at b - created_at a) (orders s) with
    | mostRecentOrder :: _ =>
        updates ++
          [{| orderId := id mostRecentOrder;
              newAmountPaid :=
                nadd (Fin (paid_or_0 mostRecentOrder)) amountToPay |}]
    | [] => updates
    end
  else updates.

(** [amountToPay] is the value of [parseFloat(paymentAmount)] and
    [confirm] the answer of the overpayment dialogue, which is asked only
    when the amount is more than the balance. *)
Definition handleSavePayment (summary : option DailySummary)
           (amountToPay : num) (confirm : bool) : Outcome :=
  match summary with
  | None => NoSummary
  | Some s =>
      if isNaN amountToPay || nle amountToPay (Fin 0) then InvalidAmount
      else if ngt amountToPay (Fin (balance s)) && negb confirm then Declined
      else Saved (allocate s amountToPay)
  end.

(** The [amount_paid] of order [o] once the update calls are done: the
    value of the update addressed to [o], the old value without one. *)
Definition resulting_paid (updates : list Update) (o : DailyOrder) : num :=
  match find (fun u => String.eqb (orderId u) (id o)) updates with
  | Some u => newAmountPaid u
  | None => Fin (paid_or_0 o)
  end.

(** *** The loop on a finite amount, in integer arithmetic

    The following definitions serve the proofs: [shares] lists, for a
    finite amount, each order the loop pays and the part it receives, and
    [allocation] does the same for the whole [try] block. *)

Definition outstanding (o : DailyOrder) : Z :=
  total_amount o - paid_or_0 o.

Definition to_update (x : DailyOrder * Z) : Update :=
  {| orderId := id (fst x);
     newAmountPaid := Fin (paid_or_0 (fst x) + snd x) |}.

Fixpoint shares (remaining : Z) (pending : list DailyOrder)
  : list (DailyOrder * Z) :=
  match pending with
  | [] => []
  | order :: rest =>
      if remaining <=? 0 then []
      else
        let part := Z.min remaining (outstanding order) in
        (order, part) :: shares (remaining - part) rest
  end.

Definition allocation (s : DailySummary) (a : Z) : list (DailyOrder * Z) :=
  let sh := shares a (pendingOrders s) in
  let left := a - sum_by snd sh in
  if (0 <? left) && (0 <? List.length sh)%nat then
    match rev sh with
    | [] => sh
    | (o, part) :: before => rev before ++ [(o, part + left)]
    end
  else if 0 <? left then
    match sort_by (fun a b => created_at b - created_at a) (orders s) with
    | mostRecentOrder :: _ => sh ++ [(mostRecentOrder, left)]
    | [] => sh
    end
  else sh.

(** The part of a payment that [alloc] gives to order [o]. *)
Definition share_of (alloc : list (DailyOrder * Z)) (o : DailyOrder) : Z :=
  sum_by snd (filter (fun x => String.eqb (id (fst x)) (id o)) alloc).

(** The payment allocator in the words of the specification: every order
    of the sorted list receives the minimum of what remains and of its
    outstanding balance, which is deducted from what remains. *)
Fixpoint spec_allocate (remaining : Z) (sorted : list DailyOrder)
  : list (DailyOrder * Z) * Z :=
  match sorted with
  | [] => ([], remaining)
  | o :: rest =>
      let applied := Z.min remaining (outstanding o) in
      let '(l, r) := spec_allocate (remaining - applied) rest in
      ((o, applied) :: l, r)
  end.

End CustomerDetail.

(** ** Line items merged by product and price *)

(** The text of a number in a template string, on integers. *)
Definition Number_toString (z : Z) : string :=
  NilEmpty.string_of_int (Z.to_int z).

(** [`${item.product_id}-${item.price}`]. *)
Definition item_key (item : OrderItem) : string :=
  (product_id item ++ "-" ++ Number_toString (price item))%string.

(** [row.quantity += item.quantity; row.total += item.total]. *)
Definition add_item (item row : OrderItem) : OrderItem :=
  {| product_id := product_id row;
     product_name := product_name row;
     quantity := quantity row + quantity item;
     unit := unit row;
     price := price row;
     total := total row + total item |}.

(** The [aggregatedItems] object that both the daily orders page and the
    statement page build with the same loop: a new key stores a copy of
    the item, a known key adds the item to its row.  Every key contains a
    hyphen, hence is no array index. *)
Definition aggregatedItems (allItems : list OrderItem)
  : list (string * OrderItem) :=
  fold_left
    (fun acc item => upsert (item_key item) item (add_item item) acc)
    allItems [].

Section MergedItems.
Variable localeCompare : string -> string -> Z.

(** [Object.values(aggregatedItems).sort((a, b) =>
    a.product_name.localeCompare(b.product_name))]. *)
Definition mergedItems (allItems : list OrderItem) : list OrderItem :=
  sort_by (fun a b => localeCompare (product_name a) (product_name b))
          (values (aggregatedItems allItems)).
End MergedItems.


(** The row the loop builds from the items [g] that share a key. *)
Definition row_of (g : list OrderItem) (row : OrderItem) : Prop :=
  match g with
  | [] => False
  | first :: _ =>
      row = {| product_id := product_id first;
               product_name := product_name first;
               quantity := sum_by quantity g;
               unit := unit first;
               price := price first;
               total := sum_by total g |}
  end.

(** ** Daily orders page *)

Module NewOrder.
(** The first argument of [addOrder]. *)
Record t : Type := {
  customer_id : string;
  customer_name : string;
  date : string;
  total_amount : Z;
  amount_paid : Z;
  status : string
}.
End NewOrder.

Module Orders.

Record CustomerDailySummary : Type := {
  customerId : string;
  customerName : string;
  orderIds : list string;
  allItems : list OrderItem;
  totalAmount : Z;
  amountPaid : Z
}.

(** The calls that reach the entity store. *)
Inductive StoreCall : Type :=
| DeleteOrder (orderId : string)
| AddOrder (order : NewOrder.t) (items : list OrderItem).

Definition dailyOrders (orders : list DailyOrder) (selectedDate : string)
  : list DailyOrder :=
  filter (fun order => String.eqb (Types.date order) selectedDate) orders.

Definition empty_summary (order : DailyOrder) : CustomerDailySummary :=
  {| customerId := customer_id order;
     customerName := customer_name order;
     orderIds := []; allItems := []; totalAmount := 0; amountPaid := 0 |}.

Definition add_order (order : DailyOrder) (summary : CustomerDailySummary)
  : CustomerDailySummary :=
  {| customerId := customerId summary;
     customerName := customerName summary;
     orderIds := orderIds summary ++ [id order];
     allItems := allItems summary ++ items order;
     totalAmount := totalAmount summary + total_amount order;
     amountPaid := amountPaid summary + paid_or_0 order |}.

(** The first loop; customer identifiers are UUIDs, hence no array
    indices, and the object enumerates in insertion order. *)
Definition summaryMap (dailyOrders : list DailyOrder)
  : list (string * CustomerDailySummary) :=
  fold_left
    (fun acc order =>
       upsert (customer_id order) (add_order order (empty_summary order))
              (add_order order) acc)
    dailyOrders [].

Section Page.
Variable localeCompare : string -> string -> Z.

(** The second loop: [summary.allItems] is replaced by the merged rows. *)
Definition merge_summary (summary : CustomerDailySummary)
  : CustomerDailySummary :=
  {| customerId := customerId summary;
     customerName := customerName summary;
     orderIds := orderIds summary;
     allItems := mergedItems localeCompare (allItems summary);
     totalAmount := totalAmount summary;
     amountPaid := amountPaid summary |}.

Definition customerDailySummaries (dailyOrders : list DailyOrder)
  : list CustomerDailySummary :=
  sort_by (fun a b => localeCompare (customerName a) (customerName b))
          (map merge_summary (values (summaryMap dailyOrders))).
End Page.


End Orders.

(** ** Statement page: daily breakdown of one customer *)

Module StatementDaily.

Record DailySummaryForStatement : Type := {
  date : string;
  totalAmount : Z;
  totalPaid : Z;
  balance : Z;
  allItems : list OrderItem
}.

Definition empty_summary (d : string) : DailySummaryForStatement :=
  {| date := d; totalAmount := 0; totalPaid := 0; balance := 0;
     allItems := [] |}.

Definition add_order (order : DailyOrder) (summary : DailySummaryForStatement)
  : DailySummaryForStatement :=
  {| date := date summary;
     totalAmount := totalAmount summary + total_amount order;
     totalPaid := totalPaid summary + paid_or_0 order;
     balance := balance summary;
     allItems := allItems summary ++ items order |}.

Definition groupedByDate (orders : list DailyOrder)
  : list (string * DailySummaryForStatement) :=
  fold_left
    (fun acc order =>
       let d := Types.date order in
       upsert d (add_order order (empty_summary d)) (add_order order) acc)
    orders [].

Section Page.
Variable localeCompare : string -> string -> Z.
Variable getTime : string -> option Z.


End Page.

End StatementDaily.

(** ** Statement page: the statement of a period *)

Module Statement.

Record CustomerStatement : Type := {
  customerId : string;
  customerName : string;
  orders : list DailyOrder;
  totalAmount : Z;
  totalPaid : Z;
  pendingAmount : Z
}.

Record StatementResult : Type := {
  customerStatements : list CustomerStatement;
  grandTotalAmount : Z;
  grandTotalPaid : Z;
  grandTotalPending : Z;
  totalOrders : nat
}.

Definition msPerDay : Z := 86400000.

(** The time value after [d.setUTCHours(0, 0, 0, 0)]. *)
Definition setUTCHours0 (t : Z) : Z := (t / msPerDay) * msPerDay.

Section Page.
Variable localeCompare : string -> string -> Z.
Variable getTime : string -> option Z.

(** [new Date(str)] followed by [setUTCHours(0, 0, 0, 0)]. *)
Definition midnight (str : string) : option Z :=
  option_map setUTCHours0 (getTime str).

Definition isDateInRange (order : DailyOrder) (rangeStart rangeEnd : string)
  : bool :=
  match midnight (Types.date order), midnight rangeStart,
        midnight rangeEnd with
  | Some orderDate, Some start, Some end_ =>
      (start <=? orderDate) && (orderDate <=? end_)
  | _, _, _ => false
  end.

Definition isCustomerMatch (order : DailyOrder) (forCustomerId : string)
  : bool :=
  String.eqb forCustomerId "all" || String.eqb (customer_id order) forCustomerId.

Definition filteredOrders (orders : list DailyOrder) (forCustomerId : string)
           (rangeStart rangeEnd : string) : list DailyOrder :=
  filter (fun order => isDateInRange order rangeStart rangeEnd
                       && isCustomerMatch order forCustomerId) orders.

Definition ordersByCustomer (filtered : list DailyOrder)
  : list (string * list DailyOrder) :=
  fold_left
    (fun acc order =>
       upsert (customer_id order) [order] (fun l => l ++ [order]) acc)
    filtered [].

Definition statement_of (entry : string * list DailyOrder)
  : CustomerStatement :=
  let '(customerId, customerOrders) := entry in
  let totalAmount := sum_by total_amount customerOrders in
  let totalPaid := sum_by paid_or_0 customerOrders in
  {| customerId := customerId;
     customerName :=
       match customerOrders with
       | first :: _ =>
           if String.eqb (customer_name first) "" then "Unknown"
           else customer_name first
       | [] => "Unknown"
       end;
     orders :=
       sort_by (fun a b => by_time getTime (Types.date a) (Types.date b))
               customerOrders;
     totalAmount := totalAmount;
     totalPaid := totalPaid;
     pendingAmount := totalAmount - totalPaid |}.

Definition generateStatementData (allOrders : list DailyOrder)
           (forCustomerId : string) (rangeStart rangeEnd : string)
  : StatementResult :=
  let filtered :=
    filteredOrders allOrders forCustomerId rangeStart rangeEnd in
  let customerStatements := map statement_of (ordersByCustomer filtered) in
  let grandTotalAmount := sum_by totalAmount customerStatements in
  let grandTotalPaid := sum_by totalPaid customerStatements in
  {| customerStatements :=
       sort_by (fun a b => localeCompare (customerName a) (customerName b))
               customerStatements;
     grandTotalAmount := grandTotalAmount;
     grandTotalPaid := grandTotalPaid;
     grandTotalPending := grandTotalAmount - grandTotalPaid;
     totalOrders := List.length filtered |}.
End Page.

End Statement.

(** ** Box calculator *)

Module Boxes.

Record BoxNeeds : Type := {
  fullBoxes : Z;
  remainingPieces : Z;
  neededForNextBox : Z
}.

(** [Math.floor(a / b)] is the floor of the exact quotient and [a % b]
    the remainder with the sign of [a]. *)
Definition calculateBoxNeeds (totalQuantity piecesPerBox : Z)
  : option BoxNeeds :=
  if piecesPerBox <=? 0 then None
  else
    let fullBoxes := totalQuantity / piecesPerBox in
    let remainingPieces := Z.rem totalQuantity piecesPerBox in
    let neededForNextBox :=
      if remainingPieces =? 0 then 0 else piecesPerBox - remainingPieces in
    Some {| fullBoxes := fullBoxes;
            remainingPieces := remainingPieces;
            neededForNextBox := neededForNextBox |}.

End Boxes.

(** ** Worked examples of the specification *)

Module Examples.
Import CustomerDetail.
Local Open Scope string_scope.

Definition order1 (t1 : Z) : DailyOrder :=
  {| id := "o1"; customer_id := "c1"; customer_name := "Asha";
     Types.date := "2025-01-01"; items := [];
     total_amount := 100; amount_paid := Some 0;
     status := "pending"; created_at := t1 |}.

Definition order2 (t2 : Z) : DailyOrder :=
  {| id := "o2"; customer_id := "c1"; customer_name := "Asha";
     Types.date := "2025-01-01"; items := [];
     total_amount := 50; amount_paid := Some 0;
     status := "pending"; created_at := t2 |}.

(** Orders [{total:100, paid:0, created:T1}, {total:50, paid:0,
    created:T2}] of one day. *)
Definition two_orders (t1 t2 : Z) : DailySummary :=
  {| date := "2025-01-01"; orders := [order1 t1; order2 t2];
     totalAmount := 150; totalPaid := 0; balance := 150; allItems := [] |}.

(** A day whose single order is already paid in full. *)
Definition settled_day : DailySummary :=
  {| date := "2025-01-01";
     orders := [{| id := "o3"; customer_id := "c1"; customer_name := "Asha";
                   Types.date := "2025-01-01"; items := [];
                   total_amount := 80; amount_paid := Some 80;
                   status := "pending"; created_at := 7 |}];
     totalAmount := 80; totalPaid := 80; balance := 0; allItems := [] |}.



(** A day with a settled order and a pending one. *)
Definition mixed_day : DailySummary :=
  {| date := "2025-01-01";
     orders := [{| id := "o3"; customer_id := "c1"; customer_name := "Asha";
                   Types.date := "2025-01-01"; items := [];
                   total_amount := 80; amount_paid := Some 80;
                   status := "pending"; created_at := 7 |};
                order2 9];
     totalAmount := 130; totalPaid := 80; balance := 50; allItems := [] |}.

(** Comparison of strings by code units, one possible [localeCompare]. *)
Definition codeUnitCompare (a b : string) : Z :=
  match String.compare a b with
  | Lt => -1
  | Eq => 0
  | Gt => 1
  end.

Definition milk (q p : Z) : OrderItem :=
  {| product_id := "11111111-1111-4111-8111-111111111111";
     product_name := "Milk"; quantity := q; unit := "L"; price := p;
     total := q * p |}.

Definition curd (q p : Z) : OrderItem :=
  {| product_id := "22222222-2222-4222-8222-222222222222";
     product_name := "Curd"; quantity := q; unit := "kg"; price := p;
     total := q * p |}.




End Examples.

(** ** Customer detail page: statistics and the offer to record a payment *)

Module CustomerPage.
Import CustomerDetail.

Record Stats : Type := {
  totalOrders : nat;
  totalSpent : Z;
  pendingAmount : Z
}.

(** The button "Record Payment" replaces the label "Fully Paid" when
    [summary.balance <= 0] is false. *)
Definition recordPaymentOffered (summary : DailySummary) : bool :=
  negb (balance summary <=? 0).

Section Page.
Variable getTime : string -> option Z.

(** [customerOrders] with its guard [if (!id) return []]: the route
    parameter may be missing or empty. *)
Definition ordersOfPage (orders : list DailyOrder) (id : option string)
  : list DailyOrder :=
  match id with
  | None => []
  | Some i => if String.eqb i "" then [] else customerOrders getTime orders i
  end.

Definition stats (orders : list DailyOrder) (id : option string) : Stats :=
  let customerOrders := ordersOfPage orders id in
  let dailySummaries := dailySummaries getTime customerOrders in
  let totalOrdersValue := sum_by totalAmount dailySummaries in
  let totalPaid := sum_by CustomerDetail.totalPaid dailySummaries in
  {| totalOrders := List.length customerOrders;
     totalSpent := totalPaid;
     pendingAmount := totalOrdersValue - totalPaid |}.
End Page.

End CustomerPage.

(** ** Daily orders page: the order form *)

Module Product.
(** Modelled from the spec: the [Product] interface of the types module,
    which is not among the sources; the fields are those the code reads. *)
Record t : Type := {
  id : string;
  name : string;
  unit : string;
  price : Z
}.
End Product.

Module Customer.
(** Modelled from the spec: the [Customer] interface of the types module,
    which is not among the sources; the fields are those the code reads. *)
Record t : Type := {
  id : string;
  name : string
}.
End Customer.

Module OrderForm.

(** The field that [handleUpdateOrderItem] changes, with its new value;
    for the quantity the value is that of [parseFloat(value) || 0], taken
    to be finite. *)
Inductive Field : Type :=
| product_id_field (value : string)
| quantity_field (value : Z).

(** An item of the form is a pair of its [clientId] and the item. *)
Definition handleAddOrderItem (clientId : string) (products : list Product.t)
           (prev : list (string * OrderItem)) : list (string * OrderItem) :=
  match products with
  | firstProduct :: _ =>
      (clientId,
       {| product_id := Product.id firstProduct;
          product_name := Product.name firstProduct;
          quantity := 0;
          unit := Product.unit firstProduct;
          price := Product.price firstProduct;
          total := 0 |}) :: prev
  | [] => prev
  end.

Definition handleRemoveOrderItem (clientId : string)
           (prev : list (string * OrderItem)) : list (string * OrderItem) :=
  filter (fun item => negb (String.eqb (fst item) clientId)) prev.

(** The end of the update: price and total follow the product of the
    catalogue, when it is still there. *)
Definition reprice (products : list Product.t) (updatedItem : OrderItem)
  : OrderItem :=
  match find (fun p => String.eqb (Product.id p) (product_id updatedItem))
             products with
  | Some currentProduct =>
      {| product_id := product_id updatedItem;
         product_name := product_name updatedItem;
         quantity := quantity updatedItem;
         unit := unit updatedItem;
         price := Product.price currentProduct;
         total := quantity updatedItem * Product.price currentProduct |}
  | None => updatedItem
  end.

Definition update_item (products : list Product.t) (field : Field)
           (item : OrderItem) : OrderItem :=
  match field with
  | product_id_field value =>
      match find (fun p => String.eqb (Product.id p) value) products with
      | None => item
      | Some product =>
          reprice products
            {| product_id := Product.id product;
               product_name := Product.name product;
               quantity := 1;
               unit := Product.unit product;
               price := Product.price product;
               total := total item |}
      end
  | quantity_field value =>
      reprice products
        {| product_id := product_id item;
           product_name := product_name item;
           quantity := value;
           unit := unit item;
           price := price item;
           total := total item |}
  end.

Definition handleUpdateOrderItem (clientId : string) (field : Field)
           (products : list Product.t) (prev : list (string * OrderItem))
  : list (string * OrderItem) :=
  map (fun item =>
         if negb (String.eqb (fst item) clientId) then item
         else (fst item, update_item products field (snd item)))
      prev.

Definition handleSubmitOrder (selectedCustomer : option Customer.t)
           (orderItems : list (string * OrderItem)) (selectedDate : string)
  : list Orders.StoreCall :=
  match selectedCustomer with
  | None => []
  | Some selectedCustomer =>
      if (List.length orderItems =? 0)%nat then []
      else
        let total_amount :=
          sum_by (fun item => total (snd item)) orderItems in
        let itemsToSave := map snd orderItems in
        [Orders.AddOrder
           {| NewOrder.customer_id := Customer.id selectedCustomer;
              NewOrder.customer_name := Customer.name selectedCustomer;
              NewOrder.date := selectedDate;
              NewOrder.total_amount := total_amount;
              NewOrder.amount_paid := 0;
              NewOrder.status := "pending" |}
           itemsToSave]
  end.



Definition confirmDelete (summary : option Orders.CustomerDailySummary)
  : list Orders.StoreCall :=
  match summary with
  | None => []
  | Some summary => map Orders.DeleteOrder (Orders.orderIds summary)
  end.

(** [customerDailySummaries.reduce((sum, summary) =>
    sum + summary.totalAmount, 0)]. *)
Definition dailyTotal (customerDailySummaries : list Orders.CustomerDailySummary)
  : Z :=
  sum_by Orders.totalAmount customerDailySummaries.

(** What the user does in the form of a new order. *)
Inductive FormAction : Type :=
| AddItem (clientId : string)
| RemoveItem (clientId : string)
| UpdateItem (clientId : string) (field : Field).

Definition form_step (products : list Product.t)
           (orderItems : list (string * OrderItem)) (action : FormAction)
  : list (string * OrderItem) :=
  match action with
  | AddItem clientId => handleAddOrderItem clientId products orderItems
  | RemoveItem clientId => handleRemoveOrderItem clientId orderItems
  | UpdateItem clientId field =>
      handleUpdateOrderItem clientId field products orderItems
  end.

(** The items of a form that starts empty, after the actions. *)
Definition form_run (products : list Product.t) (actions : list FormAction)
  : list (string * OrderItem) :=
  fold_left (form_step products) actions [].

(** The item is priced as its product is in the catalogue. *)
Definition priced (products : list Product.t) (item : OrderItem) : Prop :=
  exists p,
    find (fun p => String.eqb (Product.id p) (product_id item)) products
      = Some p /\
    price item = Product.price p /\
    total item = quantity item * Product.price p.

End OrderForm.

(** ** Statement page: the sheet of one day in the full report *)

Module FullReport.

(** A cell of the sheet: a string, a number, or a bold cell with an
    optional font size (the bold numbers carry the rupee format). *)
Inductive Cell : Type :=
| Str (v : string)
| Num (v : Z)
| BoldStr (v : string) (sz : option Z)
| BoldNum (v : Z) (sz : option Z).

Definition header : list Cell :=
  [Str "Customer Name"; Str "Product Name"; Str "Quantity"; Str "Unit";
   Str "Price per Unit"; Str "Total Price"].

(** [customerOrders[0].customer_name]; a group is never empty. *)
Definition first_customer_name (customerOrders : list DailyOrder) : string :=
  match customerOrders with
  | first :: _ => customer_name first
  | [] => ""
  end.

Definition item_row (customerName : string) (item : OrderItem) : list Cell :=
  [Str customerName; Str (product_name item); Num (quantity item);
   Str (unit item); Num (price item); Num (total item)].

Definition customer_total_row (customerTotal : Z) : list Cell :=
  [Str ""; Str ""; Str ""; Str "";
   BoldStr "Customer Total" None; BoldNum customerTotal None].

Definition grand_total_row (grandTotal : Z) : list Cell :=
  [Str ""; Str ""; Str ""; Str "";
   BoldStr "Grand Total" (Some 14); BoldNum grandTotal (Some 14)].

(** The body of the loop over the customers of the day: the rows and the
    grand total so far, then the rows of one customer. *)
Definition add_customer (state : list (list Cell) * Z)
           (customerOrders : list DailyOrder) : list (list Cell) * Z :=
  let '(allOrdersData, grandTotal) := state in
  let customerName := first_customer_name customerOrders in
  let lines := flat_map items customerOrders in
  let customerTotal := sum_by total lines in
  (allOrdersData ++ map (item_row customerName) lines
     ++ [customer_total_row customerTotal; []],
   grandTotal + customerTotal).

Section Page.
Variable localeCompare : string -> string -> Z.

(** The rows of the sheet named [date] in [handleDownloadFullReport]. *)
Definition sheet_of_date (orders : list DailyOrder) (date : string)
  : list (list Cell) :=
  let reportDateOrders :=
    filter (fun order => String.eqb (Types.date order) date) orders in
  if (List.length reportDateOrders =? 0)%nat then
    [[Str ("No orders found for " ++ date)]]
  else
    let groups :=
      sort_by (fun a b => localeCompare (first_customer_name a)
                                        (first_customer_name b))
              (values (Statement.ordersByCustomer reportDateOrders)) in
    let '(allOrdersData, grandTotal) :=
      fold_left add_customer groups ([header], 0) in
    allOrdersData ++ [grand_total_row grandTotal].
End Page.

End FullReport.

(** ** Statement page: the rows sent to the spreadsheet service *)

Module SheetSync.

Record DaySummary : Type := {
  date : string;
  customerId : string;
  customerName : string;
  products : list (string * Z);
  totalAmount : Z;
  amountPaid : Z
}.

Record SyncRow : Type := {
  ID : string;
  Date : string;
  Customer_Name : string;
  Products_Ordered : string;
  Daily_Total : Z;
  Daily_Paid : Z;
  Daily_Pending : Z;
  Customer_Total_for_Period : Z
}.


(** [`${order.date}-${order.customer_id}`]. *)
Definition day_key (order : DailyOrder) : string :=
  (Types.date order ++ "-" ++ customer_id order)%string.

(** [acc[order.customer_id] = (acc[order.customer_id] || 0) +
    order.total_amount]. *)
Definition customerPeriodTotals (filteredOrders : list DailyOrder)
  : list (string * Z) :=
  fold_left
    (fun acc order =>
       upsert (customer_id order) (0 + total_amount order)
              (fun sofar => sofar + total_amount order) acc)
    filteredOrders [].

(** [obj[key] || 0]. *)
Definition lookup_or_0 (obj : list (string * Z)) (key : string) : Z :=
  match find (fun entry => String.eqb (fst entry) key) obj with
  | Some entry => snd entry
  | None => 0
  end.

Definition empty_summary (order : DailyOrder) : DaySummary :=
  {| date := Types.date order;
     customerId := customer_id order;
     customerName := customer_name order;
     products := [];
     totalAmount := 0;
     amountPaid := 0 |}.

(** [summary.products.set(name, (summary.products.get(name) || 0) +
    item.quantity)] for every item of the order. *)
Definition add_products (orderItems : list OrderItem)
           (products : list (string * Z)) : list (string * Z) :=
  fold_left
    (fun products item =>
       upsert (product_name item) (0 + quantity item)
              (fun currentQty => currentQty + quantity item) products)
    orderItems products.

Definition add_order (order : DailyOrder) (summary : DaySummary)
  : DaySummary :=
  {| date := date summary;
     customerId := customerId summary;
     customerName := customerName summary;
     products := add_products (items order) (products summary);
     totalAmount := totalAmount summary + total_amount order;
     amountPaid := amountPaid summary + paid_or_0 order |}.

(** The [Map] of the summaries, which enumerates in insertion order. *)
Definition summaryMap (filteredOrders : list DailyOrder)
  : list (string * DaySummary) :=
  fold_left
    (fun acc order =>
       upsert (day_key order) (add_order order (empty_summary order))
              (add_order order) acc)
    filteredOrders [].

Definition row_of_summary (periodTotals : list (string * Z))
           (summary : DaySummary) : SyncRow :=
  {| ID := (date summary ++ "-" ++ customerId summary)%string;
     Date := date summary;
     Customer_Name := customerName summary;
     Products_Ordered :=
       String.concat ", "
         (map (fun entry =>
                 (fst entry ++ " (x" ++ Number_toString (snd entry) ++ ")")
                   %string)
              (products summary));
     Daily_Total := totalAmount summary;
     Daily_Paid := amountPaid summary;
     Daily_Pending := totalAmount summary - amountPaid summary;
     Customer_Total_for_Period :=
       lookup_or_0 periodTotals (customerId summary) |}.

Section Page.
Variable getTime : string -> option Z.

Definition filteredOrders (orders : list DailyOrder)
           (startDate endDate : string) : list DailyOrder :=
  filter (fun order => Statement.isDateInRange getTime order startDate endDate)
         orders.

(** By customer name, as strings compare, then by date. *)
Definition by_customer_then_date (a b : DaySummary) : Z :=
  if String.ltb (customerName a) (customerName b) then -1
  else if String.ltb (customerName b) (customerName a) then 1
  else by_time getTime (date a) (date b).

Definition dataToSync (filtered : list DailyOrder) : list SyncRow :=
  map (row_of_summary (customerPeriodTotals filtered))
      (sort_by by_customer_then_date (values (summaryMap filtered))).

End Page.

End SheetSync.

(** ** Box calculator page: sales of the day and pieces per box *)

Module Sales.
(** An entry of [salesSummary]. *)
Record t : Type := {
  totalQuantity : Z;
  totalValue : Z
}.
End Sales.

Module BoxesPage.

Record ProductRow : Type := {
  productId : string;
  name : string;
  totalQuantity : Z;
  totalValue : Z
}.

Definition no_sales : Sales.t :=
  {| Sales.totalQuantity := 0; Sales.totalValue := 0 |}.

Definition add_sale (item : OrderItem) (sales : Sales.t) : Sales.t :=
  {| Sales.totalQuantity := Sales.totalQuantity sales + quantity item;
     Sales.totalValue := Sales.totalValue sales + total item |}.

(** The two nested loops over the orders of today and their items. *)
Definition salesSummary (orders : list DailyOrder) (today : string)
  : list (string * Sales.t) :=
  let todayOrders :=
    filter (fun order => String.eqb (Types.date order) today) orders in
  fold_left
    (fun acc item =>
       upsert (product_id item) (add_sale item no_sales) (add_sale item) acc)
    (flat_map items todayOrders) [].

(** [salesSummary[product.id] || { totalQuantity: 0, totalValue: 0 }]. *)
Definition sales_of (salesSummary : list (string * Sales.t))
           (productId : string) : Sales.t :=
  match find (fun entry => String.eqb (fst entry) productId) salesSummary with
  | Some entry => snd entry
  | None => no_sales
  end.

Section Page.
Variable localeCompare : string -> string -> Z.

Definition productSummary (orders : list DailyOrder)
           (products : list Product.t) (today : string) : list ProductRow :=
  let salesSummary := salesSummary orders today in
  let allProductsSummary :=
    map (fun product =>
           let sales := sales_of salesSummary (Product.id product) in
           {| productId := Product.id product;
              name := Product.name product;
              totalQuantity := Sales.totalQuantity sales;
              totalValue := Sales.totalValue sales |})
        products in
  sort_by (fun a b => localeCompare (name a) (name b)) allProductsSummary.
End Page.

(** [isNaN(pieces) || pieces < 0 ? 0 : pieces], where [pieces] is the
    value of [parseInt(value, 10)] and [None] stands for [NaN]. *)
Definition stored_pieces (pieces : option Z) : Z :=
  match pieces with
  | None => 0
  | Some pieces => if pieces <? 0 then 0 else pieces
  end.

(** [{ ...prev, [productId]: ... }]. *)
Definition handleConfigChange (productId : string) (pieces : option Z)
           (prev : list (string * Z)) : list (string * Z) :=
  upsert productId (stored_pieces pieces) (fun _ => stored_pieces pieces) prev.

(** [boxConfigs[productId] || 0]. *)
Definition piecesPerBoxOf (boxConfigs : list (string * Z))
           (productId : string) : Z :=
  SheetSync.lookup_or_0 boxConfigs productId.

(** The calculation shown in the row of a product. *)
Definition calculation (boxConfigs : list (string * Z)) (row : ProductRow)
  : option Boxes.BoxNeeds :=
  Boxes.calculateBoxNeeds (totalQuantity row)
                          (piecesPerBoxOf boxConfigs (productId row)).

End BoxesPage.

(** * Proofs *)

(** ** Sums, sorting and dictionaries *)

Lemma fold_sum_acc {A : Type} (f : A -> Z) (l : list A) (a : Z) :
  fold_left (fun sum x => sum + f x) l a = a + sum_by f l.
Proof.
  unfold sum_by. revert a.
  induction l as [|x l IH]; intro a; simpl; [lia|].
  rewrite (IH (a + f x)), (IH (f x)). lia.
Qed.

Lemma sum_by_nil {A : Type} (f : A -> Z) : sum_by f [] = 0.
Proof. reflexivity. Qed.

Lemma sum_by_cons {A : Type} (f : A -> Z) (x : A) (l : list A) :
  sum_by f (x :: l) = f x + sum_by f l.
Proof. unfold sum_by at 1. simpl. rewrite fold_sum_acc. lia. Qed.

Lemma sum_by_app {A : Type} (f : A -> Z) (l l' : list A) :
  sum_by f (l ++ l') = sum_by f l + sum_by f l'.
Proof.
  induction l as [|x l IH]; cbn [app]; [rewrite sum_by_nil; lia|].
  rewrite !sum_by_cons, IH. lia.
Qed.

Lemma sum_by_perm {A : Type} (f : A -> Z) (l l' : list A) :
  Permutation l l' -> sum_by f l = sum_by f l'.
Proof. induction 1; rewrite ?sum_by_cons; lia. Qed.

Lemma sum_by_ext_in {A : Type} (f g : A -> Z) (l : list A) :
  (forall x, In x l -> f x = g x) -> sum_by f l = sum_by g l.
Proof.
  induction l as [|x l IH]; intro H; [reflexivity|].
  rewrite !sum_by_cons, IH, (H x); auto with datatypes.
Qed.

Lemma sum_by_nonneg {A : Type} (f : A -> Z) (l : list A) :
  (forall x, In x l -> 0 <= f x) -> 0 <= sum_by f l.
Proof.
  induction l as [|x l IH]; intro H; [rewrite sum_by_nil; lia|].
  rewrite sum_by_cons.
  assert (0 <= f x) by auto with datatypes.
  assert (0 <= sum_by f l) by auto with datatypes. lia.
Qed.

Lemma sum_by_rev {A : Type} (f : A -> Z) (l : list A) :
  sum_by f (rev l) = sum_by f l.
Proof. apply sum_by_perm, Permutation_sym, Permutation_rev. Qed.


Section SortFacts.
Context {A : Type}.
Variable cmp : A -> A -> Z.

Lemma sort_insert_perm (x : A) (l : list A) :
  Permutation (sort_insert cmp x l) (x :: l).
Proof.
  induction l as [|y l IH]; simpl; [reflexivity|].
  destruct (cmp x y <=? 0); [reflexivity|].
  rewrite IH. apply perm_swap.
Qed.

Lemma sort_by_perm (l : list A) : Permutation (sort_by cmp l) l.
Proof.
  induction l as [|x l IH]; simpl; [reflexivity|].
  rewrite sort_insert_perm. now apply perm_skip.
Qed.

Lemma sort_by_In (l : list A) (x : A) : In x (sort_by cmp l) <-> In x l.
Proof.
  split; apply Permutation_in;
    [apply sort_by_perm | apply Permutation_sym, sort_by_perm].
Qed.

Hypothesis cmp_total : forall a b, cmp a b <= 0 \/ cmp b a <= 0.

Lemma sort_insert_sorted (x : A) (l : list A) :
  Sorted (fun a b => cmp a b <= 0) l ->
  Sorted (fun a b => cmp a b <= 0) (sort_insert cmp x l).
Proof.
  induction 1 as [|y l Hs IH Hd]; simpl; [repeat constructor|].
  destruct (Z.leb_spec (cmp x y) 0) as [Hle|Hgt].
  - repeat constructor; assumption.
  - constructor; [exact IH|].
    destruct Hd as [|z l Hyz]; simpl.
    + constructor. destruct (cmp_total y x); lia.
    + destruct (cmp x z <=? 0); constructor;
        [destruct (cmp_total y x); lia | exact Hyz].
Qed.

Lemma sort_by_sorted (l : list A) :
  Sorted (fun a b => cmp a b <= 0) (sort_by cmp l).
Proof.
  induction l as [|x l IH]; simpl; [constructor|].
  now apply sort_insert_sorted.
Qed.
End SortFacts.

Arguments sum_by : simpl never.

Lemma NoDup_map_inj {A B : Type} (f : A -> B) (l : list A) (a b : A) :
  NoDup (map f l) -> In a l -> In b l -> f a = f b -> a = b.
Proof.
  induction l as [|x l IH]; simpl; [contradiction|].
  intros Hnd Ha Hb Hab. inversion Hnd as [|? ? Hnotin Hnd']; subst.
  destruct Ha as [->|Ha], Hb as [->|Hb]; auto.
  - exfalso. apply Hnotin. rewrite Hab. now apply in_map.
  - exfalso. apply Hnotin. rewrite <- Hab. now apply in_map.
Qed.

Lemma filter_keeps_distinct_keys {K X : Type} (key : X -> K)
      (xs : list X) (keep : X -> bool) :
  NoDup (map key xs) -> NoDup (map key (filter keep xs)).
Proof.
  intro Hnd. induction xs as [|x xs IH]; simpl; [constructor|].
  simpl in Hnd. apply NoDup_cons_iff in Hnd as [Hfresh Hnd].
  specialize (IH Hnd).
  destruct (keep x); simpl; [|exact IH].
  apply NoDup_cons; [|exact IH].
  rewrite in_map_iff. intros (y & Hy & Hin).
  apply filter_In in Hin as [Hin _].
  apply Hfresh. rewrite <- Hy. now apply in_map.
Qed.

Section UpsertFacts.
Context {V : Type}.
Implicit Types (k : string) (acc : list (string * V)).

Lemma upsert_keys_in k (fresh : V) f acc :
  In k (map fst acc) -> map fst (upsert k fresh f acc) = map fst acc.
Proof.
  induction acc as [|[k' v] acc IH]; simpl; [contradiction|].
  destruct (String.eqb_spec k' k) as [E|E]; [reflexivity|].
  intros [Hk|Hk]; [contradiction|]. simpl. now rewrite IH.
Qed.

Lemma upsert_keys_new k (fresh : V) f acc :
  ~ In k (map fst acc) ->
  map fst (upsert k fresh f acc) = map fst acc ++ [k].
Proof.
  induction acc as [|[k' v] acc IH]; simpl; [reflexivity|].
  destruct (String.eqb_spec k' k) as [E|E]; [tauto|].
  intro Hn. simpl. rewrite IH; tauto.
Qed.

Lemma upsert_keys_incl k (fresh : V) f acc k' :
  In k' (map fst acc) \/ k' = k <-> In k' (map fst (upsert k fresh f acc)).
Proof.
  destruct (in_dec string_dec k (map fst acc)) as [Hin|Hn].
  - rewrite upsert_keys_in by assumption.
    split; [intros [H | ->]; assumption | auto].
  - rewrite upsert_keys_new by assumption.
    rewrite in_app_iff. simpl. intuition.
Qed.

Lemma upsert_NoDup k (fresh : V) f acc :
  NoDup (map fst acc) -> NoDup (map fst (upsert k fresh f acc)).
Proof.
  intro Hnd.
  destruct (in_dec string_dec k (map fst acc)) as [Hin|Hn].
  - now rewrite upsert_keys_in.
  - rewrite upsert_keys_new by assumption.
    apply NoDup_rev in Hnd. rewrite <- (rev_involutive (_ ++ _)).
    apply NoDup_rev. rewrite rev_app_distr. simpl.
    constructor; [|assumption].
    now rewrite <- in_rev.
Qed.

Lemma upsert_Forall (Q Q' : string -> V -> Prop) k (fresh : V) f acc :
  NoDup (map fst acc) ->
  Forall (fun kv => Q (fst kv) (snd kv)) acc ->
  (forall k' v, k' <> k -> Q k' v -> Q' k' v) ->
  (forall v, Q k v -> Q' k (f v)) ->
  (~ In k (map fst acc) -> Q' k fresh) ->
  Forall (fun kv => Q' (fst kv) (snd kv)) (upsert k fresh f acc).
Proof.
  intros Hnd Hall Hframe Hstep.
  induction acc as [|[k' v] acc IH]; simpl; intro Hfresh.
  - repeat constructor. simpl. auto.
  - inversion Hnd as [|? ? Hnotin Hnd']; subst.
    inversion Hall as [|? ? Hq Hall']; subst. simpl in Hq.
    destruct (String.eqb_spec k' k) as [E|E].
    + subst k'. constructor; [simpl; auto|].
      rewrite Forall_forall in *. intros [k'' v''] Hin. simpl.
      apply Hframe; [|apply (Hall' _ Hin)].
      intros ->. apply Hnotin. apply (in_map fst) in Hin. exact Hin.
    + constructor; [simpl; auto|].
      apply IH; auto. intro Hn. apply Hfresh. simpl. tauto.
Qed.

Lemma upsert_measure (mu : V -> Z) (d : Z) k (fresh : V) f acc :
  (forall v, mu (f v) = mu v + d) -> mu fresh = d ->
  sum_by mu (values (upsert k fresh f acc)) = sum_by mu (values acc) + d.
Proof.
  intros Hf Hfresh. unfold values.
  induction acc as [|[k' v] acc IH]; simpl.
  - rewrite sum_by_cons, !sum_by_nil. lia.
  - destruct (String.eqb k' k); simpl; rewrite !sum_by_cons.
    + rewrite Hf. lia.
    + rewrite IH. lia.
Qed.
End UpsertFacts.

Section GroupFold.
Context {A V : Type}.
Variables (key : A -> string) (fresh : A -> V) (f : A -> V -> V).

Lemma group_fold_snoc (l : list A) (x : A) :
  group_fold key fresh f (l ++ [x]) =
    upsert (key x) (fresh x) (f x) (group_fold key fresh f l).
Proof. unfold group_fold. now rewrite fold_left_app. Qed.

Lemma filter_snoc (p : A -> bool) (l : list A) (x : A) :
  filter p (l ++ [x]) = filter p l ++ (if p x then [x] else []).
Proof. rewrite filter_app. reflexivity. Qed.

(** [Q g v]: the value [v] is what the loop accumulates on the group
    [g] of the elements that share a key. *)
Variable Q : list A -> V -> Prop.
Hypothesis Q_fresh : forall x, Q [x] (fresh x).
Hypothesis Q_step :
  forall x g v, g <> [] -> (forall y, In y g -> key y = key x) ->
                Q g v -> Q (g ++ [x]) (f x v).

Lemma group_fold_spec (l : list A) :
  NoDup (map fst (group_fold key fresh f l)) /\
  (forall x, In x l -> In (key x) (map fst (group_fold key fresh f l))) /\
  Forall (fun kv =>
            filter (fun x => String.eqb (key x) (fst kv)) l <> [] /\
            Q (filter (fun x => String.eqb (key x) (fst kv)) l) (snd kv))
         (group_fold key fresh f l).
Proof.
  induction l as [|x l (IHnd & IHcov & IHall)] using rev_ind.
  - repeat split; [constructor | contradiction | constructor].
  - rewrite group_fold_snoc. split; [|split].
    + now apply upsert_NoDup.
    + intros y Hy. apply upsert_keys_incl.
      apply in_app_or in Hy as [Hy | [<- | []]]; auto.
    + apply upsert_Forall
        with (Q := fun k v =>
                     filter (fun x => String.eqb (key x) k) l <> [] /\
                     Q (filter (fun x => String.eqb (key x) k) l) v)
             (Q' := fun k v =>
                      filter (fun y => String.eqb (key y) k) (l ++ [x])
                        <> [] /\
                      Q (filter (fun y => String.eqb (key y) k) (l ++ [x]))
                        v);
        auto.
      * intros k' v Hk [Hne Hq]. rewrite filter_snoc.
        destruct (String.eqb_spec (key x) k'); [congruence|].
        rewrite app_nil_r. now split.
      * intros v [Hne Hq]. rewrite filter_snoc, String.eqb_refl.
        split; [now destruct (filter _ l)|].
        apply Q_step; auto.
        intros y Hy. apply filter_In in Hy as [_ Hy].
        now apply String.eqb_eq in Hy.
      * intro Hnew. rewrite filter_snoc, String.eqb_refl.
        assert (Hnil : filter (fun y => String.eqb (key y) (key x)) l = []).
        { destruct (filter _ l) as [|y g] eqn:E; [reflexivity|].
          exfalso. apply Hnew.
          assert (Hy : In y (filter (fun y => String.eqb (key y) (key x)) l))
            by (rewrite E; now left).
          apply filter_In in Hy as [Hy Hk].
          apply String.eqb_eq in Hk. rewrite <- Hk. now apply IHcov. }
        rewrite Hnil. simpl. split; [discriminate | apply Q_fresh].
Qed.

Lemma group_fold_measure (m : A -> Z) (mu : V -> Z) (l : list A) :
  (forall x, mu (fresh x) = m x) ->
  (forall x v, mu (f x v) = mu v + m x) ->
  sum_by mu (values (group_fold key fresh f l)) = sum_by m l.
Proof.
  intros Hfresh Hf.
  induction l as [|x l IH] using rev_ind; [reflexivity|].
  rewrite group_fold_snoc, (upsert_measure mu (m x)), IH, sum_by_app,
    sum_by_cons, sum_by_nil; auto. lia.
Qed.
End GroupFold.

(** ** The payment allocator *)

Module PaymentProofs.
Import CustomerDetail.

Lemma pay_loop_shares (pending : list DailyOrder) :
  forall (r : Z) (acc : list Update),
    pay_loop pending (Fin r) acc =
      (acc ++ map to_update (shares r pending),
       Fin (r - sum_by snd (shares r pending))).
Proof.
  induction pending as [|o pending IH]; intros r acc; simpl.
  - rewrite app_nil_r, sum_by_nil. f_equal. f_equal. lia.
  - destruct (r <=? 0).
    + simpl. rewrite app_nil_r, sum_by_nil. f_equal. f_equal. lia.
    + unfold nsub. simpl. rewrite Z.add_opp_r.
      rewrite IH, sum_by_cons, <- app_assoc. simpl.
      unfold to_update at 2. simpl. unfold outstanding.
      f_equal. f_equal. lia.
Qed.

Lemma shares_sum (pending : list DailyOrder) :
  Forall (fun o => 0 < outstanding o) pending ->
  forall r, 0 <= r ->
    sum_by snd (shares r pending) = Z.min r (sum_by outstanding pending).
Proof.
  induction 1 as [|o pending Ho Hall IH]; intros r Hr; simpl.
  - rewrite !sum_by_nil. lia.
  - assert (0 <= sum_by outstanding pending).
    { apply sum_by_nonneg. intros x Hx.
      rewrite Forall_forall in Hall. specialize (Hall x Hx). lia. }
    rewrite (sum_by_cons outstanding).
    destruct (Z.leb_spec r 0); [rewrite sum_by_nil; lia|].
    rewrite sum_by_cons, IH by lia. simpl. lia.
Qed.

Lemma shares_pos (pending : list DailyOrder) :
  Forall (fun o => 0 < outstanding o) pending ->
  forall r x, In x (shares r pending) ->
    0 < snd x <= outstanding (fst x).
Proof.
  induction 1 as [|o pending Ho Hall IH]; intros r x; simpl; [tauto|].
  destruct (Z.leb_spec r 0); simpl; [tauto|].
  intros [<-|Hin]; simpl; [lia|]. eapply IH, Hin.
Qed.

Lemma shares_prefix (pending : list DailyOrder) :
  forall r, exists rest, pending = map fst (shares r pending) ++ rest.
Proof.
  induction pending as [|o pending IH]; intro r; simpl.
  - now exists [].
  - destruct (r <=? 0); simpl.
    + now exists (o :: pending).
    + destruct (IH (r - Z.min r (outstanding o))) as [rest Hrest].
      exists rest. now rewrite <- Hrest.
Qed.

Lemma shares_nonempty (pending : list DailyOrder) (r : Z) :
  0 < r -> pending <> [] -> shares r pending <> [].
Proof.
  destruct pending as [|o pending]; [congruence|]. simpl.
  destruct (Z.leb_spec r 0); [lia|discriminate].
Qed.

Lemma pending_perm (s : DailySummary) :
  Permutation (pendingOrders s)
              (filter (fun o => 0 <? total_amount o - paid_or_0 o) (orders s)).
Proof. apply sort_by_perm. Qed.

Lemma pending_In (s : DailySummary) (o : DailyOrder) :
  In o (pendingOrders s) <-> In o (orders s) /\ 0 < outstanding o.
Proof.
  unfold pendingOrders, outstanding.
  rewrite sort_by_In, filter_In, Z.ltb_lt. tauto.
Qed.

Lemma pending_pos (s : DailySummary) :
  Forall (fun o => 0 < outstanding o) (pendingOrders s).
Proof. apply Forall_forall. intros o Ho. now apply pending_In in Ho. Qed.

Lemma pending_NoDup (s : DailySummary) :
  NoDup (map id (orders s)) -> NoDup (map id (pendingOrders s)).
Proof.
  intro Hnd.
  eapply Permutation_NoDup;
    [apply Permutation_map, Permutation_sym, pending_perm|].
  now apply filter_keeps_distinct_keys.
Qed.

Lemma allocate_fin (s : DailySummary) (a : Z) :
  allocate s (Fin a) = map to_update (allocation s a).
Proof.
  unfold allocate, allocation.
  rewrite pay_loop_shares. cbn [app ngt].
  rewrite length_map.
  set (sh := shares a (pendingOrders s)).
  set (left := a - sum_by snd sh).
  destruct (0 <? left); cbn [andb].
  - destruct (0 <? List.length sh)%nat.
    + unfold bump_last. rewrite <- map_rev.
      destruct (rev sh) as [|[o part] before]; [reflexivity|].
      cbn [map]. rewrite map_app, map_rev. cbn [map].
      unfold to_update; simpl. now rewrite Z.add_assoc.
    + destruct (sort_by _ (orders s)); [reflexivity|].
      now rewrite map_app.
  - reflexivity.
Qed.

Lemma allocation_cases (s : DailySummary) (a : Z) :
  0 < a ->
  let sh := shares a (pendingOrders s) in
  let left := a - sum_by snd sh in
  (left = 0 /\ allocation s a = sh) \/
  (0 < left /\ pendingOrders s <> [] /\
   exists before o part,
     sh = before ++ [(o, part)] /\
     allocation s a = before ++ [(o, part + left)]) \/
  (left = a /\ pendingOrders s = [] /\
   ((orders s = [] /\ allocation s a = []) \/
    exists m rest,
      sort_by (fun a b => created_at b - created_at a) (orders s) = m :: rest
      /\ allocation s a = [(m, a)])).
Proof.
  intros Ha sh left.
  assert (Hsum : sum_by snd sh = Z.min a (sum_by outstanding (pendingOrders s)))
    by (apply shares_sum; [apply pending_pos | lia]).
  unfold allocation. fold sh. fold left.
  destruct (Z.ltb_spec 0 left) as [Hl|Hl]; cbn [andb]; [|left; split; [lia|easy]].
  right.
  destruct (pendingOrders s) as [|o pend] eqn:Epend.
  - right. subst sh left. cbn [shares List.length Nat.ltb Nat.leb rev].
    rewrite sum_by_nil, Z.sub_0_r. repeat split.
    cbn [app].
    destruct (sort_by _ (orders s)) as [|m rest] eqn:Esort.
    + left. split; [|reflexivity].
      apply Permutation_nil. rewrite <- Esort. apply sort_by_perm.
    + right. now exists m, rest.
  - left. split; [exact Hl|]. split; [discriminate|].
    assert (Hne : sh <> []) by (apply shares_nonempty; [lia|discriminate]).
    destruct (rev sh) as [|[o' part] before] eqn:Erev.
    + exfalso. apply Hne. rewrite <- (rev_involutive sh), Erev. reflexivity.
    + assert (Hsh : sh = rev before ++ [(o', part)])
        by (rewrite <- (rev_involutive sh), Erev; reflexivity).
      replace (0 <? List.length sh)%nat with true.
      * exists (rev before), o', part. now split.
      * symmetry. apply Nat.ltb_lt. rewrite Hsh, length_app. simpl. lia.
Qed.


Lemma allocation_pos (s : DailySummary) (a : Z) (x : DailyOrder * Z) :
  0 < a -> In x (allocation s a) -> 0 < snd x.
Proof.
  intros Ha.
  pose proof (shares_pos _ (pending_pos s) a) as Hpos.
  destruct (allocation_cases s a Ha)
    as [[Hl ->] | [(Hl & _ & before & o & part & Hsh & ->) |
                   (Hl & _ & [[He ->] | (m & rest & _ & ->)])]].
  - intro Hin. now apply Hpos.
  - rewrite Hsh in Hpos. intro Hin.
    apply in_app_or in Hin as [Hin | [<- | []]].
    + apply Hpos, in_or_app. now left.
    + specialize (Hpos (o, part)). simpl in *.
      assert (0 < part) by (apply Hpos, in_or_app; right; now left). lia.
  - contradiction.
  - intros [<- | []]. simpl. lia.
Qed.


Lemma shares_fst_In (s : DailySummary) (a : Z) (o : DailyOrder) :
  In o (map fst (shares a (pendingOrders s))) -> In o (pendingOrders s).
Proof.
  destruct (shares_prefix (pendingOrders s) a) as [rest Hrest].
  intro Hin. rewrite Hrest. apply in_or_app. now left.
Qed.

Lemma allocation_fst_In (s : DailySummary) (a : Z) (o : DailyOrder) :
  0 < a -> In o (map fst (allocation s a)) -> In o (orders s).
Proof.
  intros Ha.
  destruct (allocation_cases s a Ha)
    as [[Hl ->] | [(Hl & _ & before & o' & part & Hsh & ->) |
                   (Hl & _ & [[He ->] | (m & rest & Hsort & ->)])]].
  - intro Hin. apply shares_fst_In, pending_In in Hin. tauto.
  - intro Hin.
    assert (Hin' : In o (map fst (shares a (pendingOrders s))))
      by (rewrite Hsh; rewrite map_app in *; exact Hin).
    apply shares_fst_In, pending_In in Hin'. tauto.
  - contradiction.
  - intros [<- | []]. simpl.
    eapply sort_by_In. rewrite Hsort. now left.
Qed.

Lemma allocation_NoDup (s : DailySummary) (a : Z) :
  0 < a -> NoDup (map id (orders s)) ->
  NoDup (map id (map fst (allocation s a))).
Proof.
  intros Ha Hnd.
  assert (Hsh : NoDup (map id (map fst (shares a (pendingOrders s))))).
  { destruct (shares_prefix (pendingOrders s) a) as [rest Hrest].
    pose proof (pending_NoDup s Hnd) as Hp.
    rewrite Hrest, map_app in Hp. now apply NoDup_app_remove_r in Hp. }
  destruct (allocation_cases s a Ha)
    as [[Hl ->] | [(Hl & _ & before & o' & part & Hshe & ->) |
                   (Hl & _ & [[He ->] | (m & rest & Hsort & ->)])]].
  - exact Hsh.
  - rewrite Hshe in Hsh. rewrite map_app in *. exact Hsh.
  - constructor.
  - simpl. repeat constructor. intros [].
Qed.

(** *** From the update list to the resulting [amount_paid] *)

Section Resulting.
Variable os : list DailyOrder.
Hypothesis ids_unique : NoDup (map id os).

Lemma share_of_absent (alloc : list (DailyOrder * Z)) (o : DailyOrder) :
  ~ In (id o) (map id (map fst alloc)) -> share_of alloc o = 0.
Proof.
  unfold share_of.
  induction alloc as [|x alloc IH]; simpl; intro Hn; [apply sum_by_nil|].
  destruct (String.eqb_spec (id (fst x)) (id o)) as [E|E]; [tauto|].
  apply IH. tauto.
Qed.

Lemma resulting_absent (alloc : list (DailyOrder * Z)) (o : DailyOrder) :
  ~ In (id o) (map id (map fst alloc)) ->
  resulting_paid (map to_update alloc) o = Fin (paid_or_0 o).
Proof.
  unfold resulting_paid.
  induction alloc as [|x alloc IH]; simpl; intro Hn; [reflexivity|].
  destruct (String.eqb_spec (id (fst x)) (id o)) as [E|E]; [tauto|].
  apply IH. tauto.
Qed.

Lemma resulting_share (alloc : list (DailyOrder * Z)) (o : DailyOrder) :
  NoDup (map id (map fst alloc)) ->
  (forall x, In x (map fst alloc) -> In x os) ->
  In o os ->
  resulting_paid (map to_update alloc) o =
    Fin (paid_or_0 o + share_of alloc o).
Proof.
  intros Hnd Hincl Ho.
  induction alloc as [|x alloc IH].
  - unfold resulting_paid, share_of. simpl. rewrite sum_by_nil.
    f_equal. lia.
  - inversion Hnd as [|? ? Hnotin Hnd']; subst.
    destruct (String.eqb_spec (id (fst x)) (id o)) as [E|E].
    + assert (fst x = o).
      { apply (NoDup_map_inj id os); auto. apply Hincl. now left. }
      subst o.
      unfold resulting_paid, share_of. simpl.
      rewrite String.eqb_refl. simpl. rewrite sum_by_cons.
      fold (share_of alloc (fst x)).
      rewrite share_of_absent by exact Hnotin.
      f_equal. lia.
    + unfold resulting_paid, share_of in *. simpl.
      destruct (String.eqb_spec (id (fst x)) (id o)); [contradiction|].
      apply IH; auto. intros y Hy. apply Hincl. now right.
Qed.


End Resulting.

Lemma saved_inv (s : DailySummary) (amt : num) (confirm : bool)
      (updates : list Update) :
  handleSavePayment (Some s) amt confirm = Saved updates ->
  isNaN amt = false /\ nle amt (Fin 0) = false /\
  (ngt amt (Fin (balance s)) = true -> confirm = true) /\
  updates = allocate s amt.
Proof.
  unfold handleSavePayment.
  destruct (isNaN amt); [discriminate|].
  destruct (nle amt (Fin 0)); [discriminate|]. cbn [orb].
  destruct (ngt amt (Fin (balance s))), confirm; cbn [andb negb];
    intro H; inversion H; auto; discriminate.
Qed.

Lemma saved_fin (s : DailySummary) (a : Z) (confirm : bool)
      (updates : list Update) :
  handleSavePayment (Some s) (Fin a) confirm = Saved updates ->
  0 < a /\ updates = map to_update (allocation s a).
Proof.
  intro H. apply saved_inv in H as (_ & Hpos & _ & ->).
  simpl in Hpos. apply Z.leb_gt in Hpos.
  split; [exact Hpos | apply allocate_fin].
Qed.

(** *** Updates touch pending orders only (any accepted amount) *)

Lemma pay_loop_extends (pending : list DailyOrder) :
  forall amt acc, exists more,
    fst (pay_loop pending amt acc) = acc ++ more /\
    (forall i, In i (map orderId more) -> In i (map id pending)).
Proof.
  induction pending as [|o pending IH]; intros amt acc; simpl.
  - exists []. now rewrite app_nil_r.
  - destruct (nle amt (Fin 0)).
    + exists []. now rewrite app_nil_r.
    + match goal with |- context [pay_loop pending ?x ?y] =>
        destruct (IH x y) as (more & -> & Hids) end.
      eexists (_ :: more). rewrite <- app_assoc. split; [reflexivity|].
      simpl. intros i [<-|Hi]; auto.
Qed.

Lemma pay_loop_nonempty (pending : list DailyOrder) (amt : num) :
  pending <> [] -> nle amt (Fin 0) = false ->
  fst (pay_loop pending amt []) <> [].
Proof.
  destruct pending as [|o pending]; [congruence|]. intros _ Hn. simpl.
  rewrite Hn.
  match goal with |- context [pay_loop pending ?x ?y] =>
    destruct (pay_loop_extends pending x y) as (more & -> & _) end.
  discriminate.
Qed.

Lemma bump_last_ids (updates : list Update) (amt : num) :
  map orderId (bump_last updates amt) = map orderId updates.
Proof.
  unfold bump_last.
  destruct (rev updates) as [|u before] eqn:E; [reflexivity|].
  rewrite <- (rev_involutive updates), E. simpl.
  now rewrite !map_app.
Qed.

Lemma allocate_ids (s : DailySummary) (amt : num) (i : string) :
  pendingOrders s <> [] -> nle amt (Fin 0) = false ->
  In i (map orderId (allocate s amt)) -> In i (map id (pendingOrders s)).
Proof.
  intros Hne Hn. unfold allocate.
  pose proof (pay_loop_nonempty _ amt Hne Hn) as Hupd.
  destruct (pay_loop_extends (pendingOrders s) amt []) as (more & Hmore & Hids).
  destruct (pay_loop (pendingOrders s) amt []) as [updates left].
  simpl in Hupd, Hmore. subst updates.
  destruct more as [|u more]; [congruence|].
  cbn [List.length Nat.ltb Nat.leb]. rewrite andb_true_r.
  destruct (ngt left (Fin 0)).
  - rewrite bump_last_ids. apply Hids.
  - apply Hids.
Qed.

Lemma resulting_untouched (updates : list Update) (o : DailyOrder) :
  ~ In (id o) (map orderId updates) ->
  resulting_paid updates o = Fin (paid_or_0 o).
Proof.
  unfold resulting_paid.
  induction updates as [|u updates IH]; simpl; intro Hn; [reflexivity|].
  destruct (String.eqb_spec (orderId u) (id o)); [tauto|].
  apply IH. tauto.
Qed.

(** Every order is addressed by at most one update, so that the order in
    which the update calls complete does not matter. *)
Lemma updates_distinct (s : DailySummary) (a : Z) (confirm : bool)
      (updates : list Update) :
  NoDup (map id (orders s)) ->
  handleSavePayment (Some s) (Fin a) confirm = Saved updates ->
  NoDup (map orderId updates).
Proof.
  intros Hnd Hsaved. apply saved_fin in Hsaved as [Ha ->].
  rewrite map_map.
  rewrite (map_ext _ (fun x => id (fst x))) by reflexivity.
  rewrite <- map_map. now apply allocation_NoDup.
Qed.


(** C4.  No order's [amount_paid] is smaller after the payment than it
    was before. *)
Theorem amount_paid_never_decreases (s : DailySummary) (a : Z)
        (confirm : bool) (updates : list Update) (o : DailyOrder) :
  NoDup (map id (orders s)) ->
  handleSavePayment (Some s) (Fin a) confirm = Saved updates ->
  In o (orders s) ->
  nle (Fin (paid_or_0 o)) (resulting_paid updates o) = true.
Proof.
  intros Hnd Hsaved Ho.
  apply saved_fin in Hsaved as [Ha ->].
  rewrite (resulting_share (orders s) Hnd); auto.
  - simpl. apply Z.leb_le.
    assert (0 <= share_of (allocation s a) o); [|lia].
    apply sum_by_nonneg. intros x Hx. apply filter_In in Hx as [Hx _].
    apply (allocation_pos s a x Ha) in Hx. lia.
  - now apply allocation_NoDup.
  - intros x. now apply allocation_fst_In.
Qed.

(** C10.  When some order of the group has a positive outstanding
    balance, an order whose outstanding balance is not positive receives
    no update and keeps its [amount_paid], whatever amount was accepted
    and whether or not an overpayment was confirmed. *)
Theorem settled_orders_untouched (s : DailySummary) (amt : num)
        (confirm : bool) (updates : list Update) (o : DailyOrder) :
  NoDup (map id (orders s)) ->
  handleSavePayment (Some s) amt confirm = Saved updates ->
  (exists p, In p (orders s) /\ 0 < total_amount p - paid_or_0 p) ->
  In o (orders s) ->
  total_amount o - paid_or_0 o <= 0 ->
  ~ In (id o) (map orderId updates) /\
  resulting_paid updates o = Fin (paid_or_0 o).
Proof.
  intros Hnd Hsaved (p & Hp & Hppos) Ho Hsettled.
  apply saved_inv in Hsaved as (_ & Hpos & _ & ->).
  assert (Hout : ~ In (id o) (map orderId (allocate s amt))).
  { intro Hin. apply allocate_ids in Hin; auto.
    - apply in_map_iff in Hin as (o' & Hid & Ho').
      apply pending_In in Ho' as [Ho' Hpos'].
      assert (o' = o) by (apply (NoDup_map_inj id (orders s)); auto).
      subst o'. unfold outstanding in Hpos'. lia.
    - intro Hnil.
      assert (Hin' : In p (pendingOrders s)) by (apply pending_In; now split).
      rewrite Hnil in Hin'. contradiction. }
  split; [exact Hout | now apply resulting_untouched].
Qed.

(** *** The loop against the words of the specification *)

Lemma StronglySorted_impl {A : Type} (R R' : A -> A -> Prop) (l : list A) :
  (forall x y, R x y -> R' x y) -> StronglySorted R l -> StronglySorted R' l.
Proof.
  intros HR. induction 1 as [|x l Hs IH Hall]; constructor; auto.
  eapply Forall_impl; [|exact Hall]. auto.
Qed.

Lemma sort_by_key_sorted {A : Type} (key : A -> Z) (l : list A) :
  StronglySorted (fun x y => key x <= key y)
                 (sort_by (fun a b => key a - key b) l).
Proof.
  apply StronglySorted_impl
    with (R := fun a b => key a - key b <= 0); [intros; lia|].
  apply Sorted_StronglySorted.
  - intros x y z Hxy Hyz. lia.
  - apply sort_by_sorted. intros a b. lia.
Qed.

Lemma sort_by_key_desc_sorted {A : Type} (key : A -> Z) (l : list A) :
  StronglySorted (fun x y => key y <= key x)
                 (sort_by (fun a b => key b - key a) l).
Proof.
  apply StronglySorted_impl
    with (R := fun a b => key b - key a <= 0); [intros; lia|].
  apply Sorted_StronglySorted.
  - intros x y z Hxy Hyz. lia.
  - apply sort_by_sorted. intros a b. lia.
Qed.

Lemma spec_allocate_zero (pending : list DailyOrder) :
  Forall (fun o => 0 < outstanding o) pending ->
  Forall (fun x => snd x = 0) (fst (spec_allocate 0 pending)) /\
  snd (spec_allocate 0 pending) = 0.
Proof.
  induction 1 as [|o pending Ho Hall [IH1 IH2]]; simpl; [now split|].
  replace (Z.min 0 (outstanding o)) with 0 by lia. simpl.
  destruct (spec_allocate 0 pending) as [l r]. simpl in *.
  split; [constructor|]; auto.
Qed.

Lemma spec_allocate_shares (pending : list DailyOrder) :
  Forall (fun o => 0 < outstanding o) pending ->
  forall r, 0 <= r ->
    let k := List.length (shares r pending) in
    firstn k (fst (spec_allocate r pending)) = shares r pending /\
    Forall (fun x => snd x = 0) (skipn k (fst (spec_allocate r pending))) /\
    snd (spec_allocate r pending) = r - sum_by snd (shares r pending).
Proof.
  induction 1 as [|o pending Ho Hall IH]; intros r Hr.
  - simpl. rewrite sum_by_nil. repeat split; [constructor | lia].
  - cbn [shares].
    destruct (Z.leb_spec r 0) as [Hle|Hgt].
    + assert (r = 0) by lia. subst r.
      destruct (spec_allocate_zero (o :: pending)) as [H1 H2];
        [now constructor|].
      cbn [List.length firstn skipn]. rewrite sum_by_nil.
      repeat split; [exact H1 | lia].
    + cbn [spec_allocate].
      destruct (IH (r - Z.min r (outstanding o))) as (H1 & H2 & H3); [lia|].
      destruct (spec_allocate (r - Z.min r (outstanding o)) pending)
        as [l r'].
      cbn [fst snd List.length firstn skipn] in *.
      rewrite H1, sum_by_cons. cbn [snd].
      repeat split; [exact H2 | lia].
Qed.

Lemma shares_full (pending : list DailyOrder) :
  Forall (fun o => 0 < outstanding o) pending ->
  forall r, sum_by outstanding pending < r ->
    shares r pending = map (fun o => (o, outstanding o)) pending.
Proof.
  induction 1 as [|o pending Ho Hall IH]; intros r Hr; [reflexivity|].
  rewrite sum_by_cons in Hr.
  assert (0 <= sum_by outstanding pending).
  { apply sum_by_nonneg. intros x Hx.
    rewrite Forall_forall in Hall. specialize (Hall x Hx). lia. }
  cbn [shares map].
  destruct (Z.leb_spec r 0); [lia|].
  replace (Z.min r (outstanding o)) with (outstanding o) by lia.
  rewrite IH by lia. reflexivity.
Qed.

(** C2.  Oldest first: the loop runs over exactly the orders with a
    positive outstanding balance, by ascending creation time, and gives
    each the minimum of what remains and of its outstanding balance; the
    orders it stops before are those the rule gives nothing.  With the
    two orders of the specification, 120 yields 100 and 20. *)
Theorem oldest_first_allocation (s : DailySummary) (a : Z) :
  0 < a ->
  let pending := pendingOrders s in
  let applied := fst (spec_allocate a pending) in
  let left := snd (spec_allocate a pending) in
  Permutation pending
    (filter (fun o => 0 <? total_amount o - paid_or_0 o) (orders s)) /\
  (forall o, In o pending <->
             In o (orders s) /\ 0 < total_amount o - paid_or_0 o) /\
  StronglySorted (fun x y => created_at x <= created_at y) pending /\
  (exists k,
      pay_loop pending (Fin a) [] =
        (map to_update (firstn k applied), Fin left) /\
      Forall (fun x => snd x = 0) (skipn k applied) /\
      (forall confirm updates,
          handleSavePayment (Some s) (Fin a) confirm = Saved updates ->
          left = 0 ->
          updates = map to_update (firstn k applied))) /\
  (forall t1 t2, t1 < t2 ->
     handleSavePayment (Some (Examples.two_orders t1 t2)) (Fin 120) false =
       Saved [{| orderId := "o1"; newAmountPaid := Fin 100 |};
              {| orderId := "o2"; newAmountPaid := Fin 20 |}]).
Proof.
  intros Ha pending applied left.
  split; [apply pending_perm|].
  split; [intro o; apply pending_In|].
  split; [apply sort_by_key_sorted|].
  split.
  - destruct (spec_allocate_shares pending (pending_pos s) a) as (H1 & H2 & H3);
      [lia|].
    exists (List.length (shares a pending)).
    fold applied in H1, H2. fold left in H3.
    rewrite pay_loop_shares, H1, H3. cbn [app].
    split; [reflexivity|]. split; [exact H2|].
    intros confirm updates Hsaved Hleft.
    apply saved_fin in Hsaved as [_ ->].
    unfold allocation. fold pending.
    replace (0 <? a - sum_by snd (shares a pending)) with false
      by (symmetry; apply Z.ltb_ge; lia).
    reflexivity.
  - intros t1 t2 Ht. unfold handleSavePayment, allocate, pendingOrders.
    simpl.
    destruct (Z.leb_spec (t1 - t2) 0); [|lia]. reflexivity.
Qed.

(** C3.  Overpayment: when the amount is more than all the positive
    outstanding balances together, every pending order is paid in full
    and what is left goes on top of the last of them; when no order has a
    positive outstanding balance, the whole amount goes to the most
    recently created order of the group.  With the two orders of the
    specification, a confirmed 200 yields 100 and 100. *)
Theorem overpayment_leftover (s : DailySummary) (a : Z) :
  0 < a ->
  (pendingOrders s <> [] ->
   sum_by (fun o => total_amount o - paid_or_0 o) (pendingOrders s) < a ->
   exists before lastOrder,
     pendingOrders s = before ++ [lastOrder] /\
     allocate s (Fin a) =
       map (fun o => {| orderId := id o;
                        newAmountPaid := Fin (total_amount o) |}) before ++
       [{| orderId := id lastOrder;
           newAmountPaid :=
             Fin (total_amount lastOrder +
                  (a - sum_by (fun o => total_amount o - paid_or_0 o)
                              (pendingOrders s))) |}]) /\
  (pendingOrders s = [] -> orders s <> [] ->
   exists mostRecentOrder,
     In mostRecentOrder (orders s) /\
     (forall o, In o (orders s) ->
                created_at o <= created_at mostRecentOrder) /\
     allocate s (Fin a) =
       [{| orderId := id mostRecentOrder;
           newAmountPaid := Fin (paid_or_0 mostRecentOrder + a) |}]) /\
  (forall t1 t2, t1 < t2 ->
     handleSavePayment (Some (Examples.two_orders t1 t2)) (Fin 200) true =
       Saved [{| orderId := "o1"; newAmountPaid := Fin 100 |};
              {| orderId := "o2"; newAmountPaid := Fin 100 |}]) /\
  (forall t1 t2,
     handleSavePayment (Some (Examples.two_orders t1 t2)) (Fin 200) false =
       Declined).
Proof.
  intro Ha. split; [|split; [|split; [|reflexivity]]].
  - intros Hne Hover. fold outstanding in *.
    change (fun o => total_amount o - paid_or_0 o) with outstanding in *.
    destruct (exists_last Hne) as (before & lastOrder & Hlast).
    exists before, lastOrder. split; [exact Hlast|].
    rewrite allocate_fin.
    pose proof (shares_full _ (pending_pos s) a Hover) as Hfull.
    destruct (allocation_cases s a Ha)
      as [[Hl _] | [(Hl & _ & bef & o & part & Hsh & ->) | (_ & Hnil & _)]].
    + rewrite shares_sum in Hl by (try apply pending_pos; lia). lia.
    + rewrite shares_sum by (try apply pending_pos; lia).
      rewrite Hfull, Hlast, map_app in Hsh. cbn [map] in Hsh.
      apply app_inj_tail in Hsh as [<- Hpair].
      injection Hpair as <- <-.
      rewrite map_app, map_map. cbn [map]. f_equal.
      * apply map_ext. intro x. unfold to_update, outstanding. simpl.
        f_equal. f_equal. lia.
      * unfold to_update. cbn [fst snd]. do 3 f_equal.
        unfold outstanding at 1. lia.
    + contradiction.
  - intros Hnil Hne.
    rewrite allocate_fin.
    destruct (allocation_cases s a Ha)
      as [[Hl _] | [(_ & Hne' & _) |
                    (_ & _ & [[He _] | (m & rest & Hsort & ->)])]].
    + rewrite Hnil in Hl. simpl in Hl. rewrite sum_by_nil in Hl. lia.
    + contradiction.
    + contradiction.
    + exists m. split; [|split].
      * eapply sort_by_In. rewrite Hsort. now left.
      * intros o Ho.
        pose proof (sort_by_key_desc_sorted created_at (orders s)) as Hs.
        rewrite Hsort in Hs. apply StronglySorted_inv in Hs as [_ Hall].
        eapply (sort_by_In (fun a b => created_at b - created_at a)) in Ho.
        rewrite Hsort in Ho. destruct Ho as [<-|Ho]; [lia|].
        rewrite Forall_forall in Hall. now apply Hall.
      * reflexivity.
  - intros t1 t2 Ht. unfold handleSavePayment, allocate, pendingOrders.
    simpl.
    destruct (Z.leb_spec (t1 - t2) 0); [|lia]. reflexivity.
Qed.
End PaymentProofs.

(** ** Overpayment and confirmation *)

Module OverpaymentProofs.
Import CustomerDetail.

Lemma sum_by_sub {A : Type} (f g : A -> Z) (l : list A) :
  sum_by (fun x => f x - g x) l = sum_by f l - sum_by g l.
Proof.
  induction l as [|x l IH]; rewrite ?sum_by_nil, ?sum_by_cons; lia.
Qed.






End OverpaymentProofs.

(** ** The theorems on the examples of the specification *)

Module PaymentWitnesses.
Import CustomerDetail.

Lemma two_orders_ids : NoDup (map id (orders (Examples.two_orders 1 2))).
Proof.
  simpl. constructor.
  - intros [H|[]]. discriminate H.
  - constructor; [intros [] | constructor].
Defined.

Lemma mixed_day_ids : NoDup (map id (orders Examples.mixed_day)).
Proof.
  simpl. constructor.
  - intros [H|[]]. discriminate H.
  - constructor; [intros [] | constructor].
Defined.


Lemma amount_paid_never_decreases_witness :
  nle (Fin (paid_or_0 (Examples.order2 2)))
      (resulting_paid
         [{| orderId := "o1"; newAmountPaid := Fin 100 |};
          {| orderId := "o2"; newAmountPaid := Fin 20 |}]
         (Examples.order2 2)) = true.
Proof.
  apply (PaymentProofs.amount_paid_never_decreases
           (Examples.two_orders 1 2) 120 false).
  - exact two_orders_ids.
  - reflexivity.
  - simpl. right. left. reflexivity.
Defined.

Lemma settled_orders_untouched_witness :
  ~ In "o3"%string
       (map orderId [{| orderId := "o2"; newAmountPaid := Fin 70 |}]) /\
  resulting_paid [{| orderId := "o2"; newAmountPaid := Fin 70 |}]
                 (hd (Examples.order1 0) (orders Examples.mixed_day))
    = Fin 80.
Proof.
  apply (PaymentProofs.settled_orders_untouched
           Examples.mixed_day (Fin 70) true
           [{| orderId := "o2"; newAmountPaid := Fin 70 |}]
           (hd (Examples.order1 0) (orders Examples.mixed_day))).
  - exact mixed_day_ids.
  - reflexivity.
  - exists (Examples.order2 9). split; [simpl; right; left; reflexivity|].
    simpl. lia.
  - simpl. left. reflexivity.
  - simpl. lia.
Defined.

Lemma oldest_first_allocation_witness :
  0 < 120 /\
  StronglySorted (fun x y => created_at x <= created_at y)
                 (pendingOrders (Examples.two_orders 1 2)).
Proof.
  split; [lia|].
  apply (PaymentProofs.oldest_first_allocation
           (Examples.two_orders 1 2) 120 ltac:(lia)).
Defined.

Lemma overpayment_leftover_witness :
  0 < 200 /\
  handleSavePayment (Some (Examples.two_orders 1 2)) (Fin 200) true =
    Saved [{| orderId := "o1"; newAmountPaid := Fin 100 |};
           {| orderId := "o2"; newAmountPaid := Fin 100 |}].
Proof.
  split; [lia|].
  apply (PaymentProofs.overpayment_leftover
           (Examples.two_orders 1 2) 200 ltac:(lia)).
  lia.
Defined.

End PaymentWitnesses.

(** ** Validation of the entered amount *)

Module ValidationProofs.
Import CustomerDetail.

(** The guard turns away [NaN], minus infinity, zero and every negative
    amount before anything else is done. *)
Lemma invalid_amount_rejected (s : DailySummary) (amt : num)
      (confirm : bool) :
  amt = NaN \/ amt = NegInf \/ (exists z, amt = Fin z /\ z <= 0) ->
  handleSavePayment (Some s) amt confirm = InvalidAmount.
Proof.
  intros [-> | [-> | (z & -> & Hz)]]; try reflexivity.
  unfold handleSavePayment. simpl.
  now replace (z <=? 0) with true by (symmetry; apply Z.leb_le; lia).
Qed.


End ValidationProofs.

(** ** The box calculator *)

Module BoxProofs.
Import Boxes.



End BoxProofs.

(** ** The statement of a period *)

Module StatementProofs.
Import Statement.

Lemma ordersByCustomer_fold (l : list DailyOrder) :
  ordersByCustomer l =
    group_fold customer_id (fun o => [o]) (fun o g => g ++ [o]) l.
Proof. reflexivity. Qed.

Lemma ordersByCustomer_spec (l : list DailyOrder) :
  NoDup (map fst (ordersByCustomer l)) /\
  (forall o, In o l -> In (customer_id o) (map fst (ordersByCustomer l))) /\
  (forall k g, In (k, g) (ordersByCustomer l) ->
     g <> [] /\ g = filter (fun o => String.eqb (customer_id o) k) l).
Proof.
  rewrite ordersByCustomer_fold.
  destruct (group_fold_spec customer_id (fun o => [o]) (fun o g => g ++ [o])
              (fun grp v => v = grp)) with (l := l) as (Hnd & Hcov & Hall).
  - reflexivity.
  - intros x g v _ _ ->. reflexivity.
  - repeat split; auto.
    + rewrite Forall_forall in Hall. destruct (Hall _ H) as [Hne Hg].
      simpl in *. congruence.
    + rewrite Forall_forall in Hall. destruct (Hall _ H) as [Hne Hg].
      exact Hg.
Qed.

Lemma msPerDay_pos : 0 < msPerDay.
Proof. reflexivity. Qed.

Lemma midnight_le (a b : Z) :
  (setUTCHours0 a <=? setUTCHours0 b) = (a / msPerDay <=? b / msPerDay).
Proof.
  unfold setUTCHours0. pose proof msPerDay_pos.
  destruct (Z.leb_spec (a / msPerDay) (b / msPerDay));
    [apply Z.leb_le | apply Z.leb_gt]; nia.
Qed.

Lemma statement_of_id (entry : string * list DailyOrder)
      (getTime : string -> option Z) :
  customerId (statement_of getTime entry) = fst entry.
Proof. now destruct entry. Qed.

(** C9.  The statement selects exactly the orders whose calendar day is
    between the day of the start and the day of the end of the range,
    both included, and whose customer passes the filter; every selected
    customer has one entry, whose orders are that customer's selected
    orders and whose totals are their sums; the grand totals are the sums
    over all selected orders; with nothing selected the list is empty and
    the totals are zero. *)
Theorem statement_of_range
        (localeCompare : string -> string -> Z)
        (getTime : string -> option Z) (allOrders : list DailyOrder)
        (forCustomerId rangeStart rangeEnd : string) :
  let selected :=
    filteredOrders getTime allOrders forCustomerId rangeStart rangeEnd in
  let r :=
    generateStatementData localeCompare getTime allOrders forCustomerId
                          rangeStart rangeEnd in
  (forall o,
      In o selected <->
      In o allOrders /\
      (exists t ts te,
          getTime (Types.date o) = Some t /\
          getTime rangeStart = Some ts /\ getTime rangeEnd = Some te /\
          ts / msPerDay <= t / msPerDay <= te / msPerDay) /\
      (forCustomerId = "all"%string \/ customer_id o = forCustomerId)) /\
  totalOrders r = List.length selected /\
  (forall cs, In cs (customerStatements r) ->
     let mine :=
       filter (fun o => String.eqb (customer_id o) (customerId cs)) selected in
     mine <> [] /\
     Permutation (orders cs) mine /\
     totalAmount cs = sum_by total_amount mine /\
     totalPaid cs = sum_by paid_or_0 mine /\
     pendingAmount cs = totalAmount cs - totalPaid cs) /\
  NoDup (map customerId (customerStatements r)) /\
  (forall o, In o selected ->
     exists cs, In cs (customerStatements r) /\
                customerId cs = customer_id o) /\
  grandTotalAmount r = sum_by total_amount selected /\
  grandTotalPaid r = sum_by paid_or_0 selected /\
  grandTotalPending r = grandTotalAmount r - grandTotalPaid r /\
  (selected = [] ->
   customerStatements r = [] /\ grandTotalAmount r = 0 /\
   grandTotalPaid r = 0 /\ grandTotalPending r = 0 /\
   totalOrders r = 0%nat).
Proof.
  intros selected r.
  destruct (ordersByCustomer_spec selected) as (Hnd & Hcov & Hgrp).
  split; [|split; [|split; [|split; [|split; [|split; [|split; [|split]]]]]]].
  - intro o. unfold selected, filteredOrders.
    rewrite filter_In, andb_true_iff.
    unfold isDateInRange, isCustomerMatch, midnight.
    rewrite orb_true_iff, !String.eqb_eq.
    destruct (getTime (Types.date o)) as [t|]; simpl.
    2:{ split; [intros (_ & H & _); discriminate|].
        intros (_ & (t & ts & te & H & _) & _). discriminate. }
    destruct (getTime rangeStart) as [ts|]; simpl.
    2:{ split; [intros (_ & H & _); discriminate|].
        intros (_ & (t' & ts & te & _ & H & _) & _). discriminate. }
    destruct (getTime rangeEnd) as [te|]; simpl.
    2:{ split; [intros (_ & H & _); discriminate|].
        intros (_ & (t' & ts' & te & _ & _ & H & _) & _). discriminate. }
    rewrite !midnight_le, andb_true_iff, !Z.leb_le.
    split.
    + intros (Hin & Hrange & Hc). repeat split; auto.
      exists t, ts, te. repeat split; tauto.
    + intros (Hin & (t' & ts' & te' & Ht & Hts & Hte & Hrange) & Hc).
      inversion Ht; inversion Hts; inversion Hte; subst. tauto.
  - reflexivity.
  - intros cs Hcs mine. unfold r, generateStatementData in Hcs.
    cbn [customerStatements] in Hcs.
    apply sort_by_In, in_map_iff in Hcs as ([k g] & <- & Hin).
    fold selected in Hin.
    destruct (Hgrp k g Hin) as [Hne Hg].
    unfold mine. cbn [statement_of customerId orders totalAmount totalPaid
                        pendingAmount].
    rewrite <- Hg. repeat split; auto. apply sort_by_perm.
  - unfold r, generateStatementData. cbn [customerStatements].
    fold selected.
    eapply Permutation_NoDup;
      [apply Permutation_map, Permutation_sym, sort_by_perm|].
    rewrite map_map.
    rewrite (map_ext _ fst) by (intro e; apply statement_of_id).
    exact Hnd.
  - intros o Ho. specialize (Hcov o Ho).
    apply in_map_iff in Hcov as ([k g] & Hk & Hin). simpl in Hk. subst k.
    exists (statement_of getTime (customer_id o, g)). split; [|reflexivity].
    unfold r, generateStatementData. cbn [customerStatements].
    apply sort_by_In, in_map. exact Hin.
  - unfold r, generateStatementData. cbn [grandTotalAmount]. fold selected.
    rewrite ordersByCustomer_fold.
    rewrite <- (group_fold_measure customer_id (fun o => [o])
                  (fun o g => g ++ [o]) total_amount (sum_by total_amount)).
    + unfold values. clear.
      induction (group_fold _ _ _ selected) as [|[k g] l IH];
        [reflexivity|]. simpl. rewrite !sum_by_cons, IH. reflexivity.
    + intro x. rewrite sum_by_cons, sum_by_nil. lia.
    + intros x v. rewrite sum_by_app, sum_by_cons, sum_by_nil. lia.
  - unfold r, generateStatementData. cbn [grandTotalPaid]. fold selected.
    rewrite ordersByCustomer_fold.
    rewrite <- (group_fold_measure customer_id (fun o => [o])
                  (fun o g => g ++ [o]) paid_or_0 (sum_by paid_or_0)).
    + unfold values. clear.
      induction (group_fold _ _ _ selected) as [|[k g] l IH];
        [reflexivity|]. simpl. rewrite !sum_by_cons, IH. reflexivity.
    + intro x. rewrite sum_by_cons, sum_by_nil. lia.
    + intros x v. rewrite sum_by_app, sum_by_cons, sum_by_nil. lia.
  - reflexivity.
  - intro Hnil. unfold r, generateStatementData. fold selected.
    rewrite Hnil. repeat split.
Qed.
End StatementProofs.

(** ** The order aggregator *)

Module AggregatorProofs.



Lemma item_key_same (i j : OrderItem) :
  product_id i = product_id j -> price i = price j ->
  item_key i = item_key j.
Proof. unfold item_key. now intros -> ->. Qed.


Lemma aggregatedItems_spec (lines : list OrderItem) :
  NoDup (map fst (aggregatedItems lines)) /\
  (forall i, In i lines ->
             In (item_key i) (map fst (aggregatedItems lines))) /\
  (forall k row, In (k, row) (aggregatedItems lines) ->
     row_of (filter (fun i => String.eqb (item_key i) k) lines) row).
Proof.
  change (aggregatedItems lines)
    with (group_fold item_key (fun i => i) add_item lines).
  destruct (group_fold_spec item_key (fun i => i) add_item row_of)
    with (l := lines) as (Hnd & Hcov & Hall).
  - intros [pid name q u p t]. simpl.
    rewrite !sum_by_cons, !sum_by_nil. simpl. f_equal; lia.
  - intros x [|first rest] v Hne _ Hv; [congruence|].
    simpl in *. subst v. unfold add_item. simpl.
    rewrite !sum_by_cons, !sum_by_app, !sum_by_cons, !sum_by_nil.
    f_equal; lia.
  - repeat split; auto.
    intros k row Hin. rewrite Forall_forall in Hall.
    now destruct (Hall _ Hin).
Qed.

Section Merged.
Variable localeCompare : string -> string -> Z.
Hypothesis localeCompare_total :
  forall a b, localeCompare a b <= 0 \/ localeCompare b a <= 0.


Lemma row_key (lines : list OrderItem) (k : string) (r : OrderItem) :
  In (k, r) (aggregatedItems lines) ->
  item_key r = k /\
  exists first,
    In first lines /\ item_key first = k /\
    product_id r = product_id first /\ price r = price first /\
    quantity r =
      sum_by quantity (filter (fun i => String.eqb (item_key i) k) lines) /\
    total r =
      sum_by total (filter (fun i => String.eqb (item_key i) k) lines).
Proof.
  intro Hin.
  destruct (aggregatedItems_spec lines) as (_ & _ & Hrow).
  specialize (Hrow k r Hin). unfold row_of in Hrow.
  destruct (filter _ lines) as [|first rest] eqn:E; [contradiction|].
  assert (Hf : In first (filter (fun i => String.eqb (item_key i) k) lines))
    by (rewrite E; now left).
  apply filter_In in Hf as [Hf Hk]. apply String.eqb_eq in Hk.
  subst r. simpl.
  split; [rewrite <- Hk; now apply item_key_same|].
  exists first. repeat split; auto.
Qed.

End Merged.

Lemma summaryMap_spec (dailyOrders : list DailyOrder) (k : string)
      (v : Orders.CustomerDailySummary) :
  In (k, v) (Orders.summaryMap dailyOrders) ->
  let group := filter (fun o => String.eqb (customer_id o) k) dailyOrders in
  group <> [] /\
  Orders.customerId v = k /\
  Orders.orderIds v = map id group /\
  Orders.allItems v = flat_map items group /\
  Orders.totalAmount v = sum_by total_amount group /\
  Orders.amountPaid v = sum_by paid_or_0 group.
Proof.
  change (Orders.summaryMap dailyOrders)
    with (group_fold customer_id
            (fun o => Orders.add_order o (Orders.empty_summary o))
            Orders.add_order dailyOrders).
  intros Hin group.
  destruct (group_fold_spec customer_id
              (fun o => Orders.add_order o (Orders.empty_summary o))
              Orders.add_order
              (fun grp v =>
                 Orders.orderIds v = map id grp /\
                 Orders.allItems v = flat_map items grp /\
                 Orders.totalAmount v = sum_by total_amount grp /\
                 Orders.amountPaid v = sum_by paid_or_0 grp /\
                 forall o, In o grp -> customer_id o = Orders.customerId v))
    with (l := dailyOrders) as (_ & _ & Hall).
  - intro x. simpl. rewrite !sum_by_cons, !sum_by_nil, app_nil_r.
    repeat split; try lia. intros o [<-|[]]. reflexivity.
  - intros x grp w Hne Hkey (Hi & Hl & Ht & Hp & Hc). simpl.
    rewrite map_app, flat_map_app, !sum_by_app, !sum_by_cons, !sum_by_nil,
      Hi, Hl, Ht, Hp. simpl. rewrite app_nil_r.
    repeat split; try lia.
    intros o Ho. apply in_app_or in Ho as [Ho | [<- | []]]; auto.
    destruct grp as [|y grp]; [congruence|].
    rewrite <- (Hc y), (Hkey y); auto with datatypes.
  - rewrite Forall_forall in Hall.
    destruct (Hall _ Hin) as (Hne & Hi & Hl & Ht & Hp & Hc). simpl in *.
    fold group in Hne, Hi, Hl, Ht, Hp, Hc.
    repeat split; auto.
    destruct group as [|y grp] eqn:E; [congruence|].
    assert (Hy : In y (filter (fun o => String.eqb (customer_id o) k)
                               dailyOrders))
      by (fold group; rewrite E; now left).
    rewrite <- (Hc y) by now left.
    apply filter_In in Hy as [_ Hy]. now apply String.eqb_eq.
Qed.



Lemma codeUnitCompare_total (a b : string) :
  Examples.codeUnitCompare a b <= 0 \/ Examples.codeUnitCompare b a <= 0.
Proof.
  unfold Examples.codeUnitCompare. rewrite (String.compare_antisym a b).
  destruct (String.compare b a); simpl; lia.
Defined.

End AggregatorProofs.

(** * Further properties of the pages *)

(** ** Customer detail page: summaries, statistics, payments *)

Module CustomerPageProofs.
Import CustomerDetail.

Lemma sum_by_map {A B : Type} (g : A -> B) (f : B -> Z) (l : list A) :
  sum_by f (map g l) = sum_by (fun x => f (g x)) l.
Proof.
  induction l as [|x l IH]; simpl; rewrite ?sum_by_nil, ?sum_by_cons;
    congruence.
Qed.

Lemma sum_by_positive {A : Type} (f : A -> Z) (l : list A) :
  0 < sum_by f l -> exists x, In x l /\ 0 < f x.
Proof.
  induction l as [|x l IH]; rewrite ?sum_by_nil, ?sum_by_cons; [lia|].
  intro H. destruct (Z.ltb_spec 0 (f x)) as [Hx|Hx].
  - exists x. split; [now left | exact Hx].
  - destruct IH as (y & Hy & Hpos); [lia|]. exists y. split; [now right|auto].
Qed.

Lemma grouped_entry (cos : list DailyOrder) (k : string) (g : DailySummary) :
  In (k, g) (groupedByDate cos) ->
  date g = k /\
  orders g <> [] /\
  orders g = filter (fun o => String.eqb (Types.date o) k) cos /\
  allItems g = flat_map items (orders g) /\
  totalAmount g = sum_by total_amount (orders g) /\
  totalPaid g = sum_by paid_or_0 (orders g).
Proof.
  change (groupedByDate cos)
    with (group_fold Types.date
            (fun o => add_order o (empty_summary (Types.date o)))
            add_order cos).
  intro Hin.
  destruct (group_fold_spec Types.date
              (fun o => add_order o (empty_summary (Types.date o)))
              add_order
              (fun grp v =>
                 orders v = grp /\
                 allItems v = flat_map items grp /\
                 totalAmount v = sum_by total_amount grp /\
                 totalPaid v = sum_by paid_or_0 grp /\
                 forall o, In o grp -> Types.date o = date v))
    with (l := cos) as (_ & _ & Hall).
  - intro x. simpl. rewrite !sum_by_cons, !sum_by_nil, app_nil_r.
    repeat split; try lia. intros o [<-|[]]. reflexivity.
  - intros x grp v Hne Hkey (Ho & Hi & Ht & Hp & Hd). simpl.
    rewrite flat_map_app, !sum_by_app, !sum_by_cons, !sum_by_nil,
      Ho, Hi, Ht, Hp. simpl. rewrite app_nil_r.
    repeat split; try lia.
    intros o Ho'. apply in_app_or in Ho' as [Ho' | [<- | []]]; auto.
    destruct grp as [|y grp]; [congruence|].
    rewrite <- (Hd y), (Hkey y); auto with datatypes.
  - rewrite Forall_forall in Hall.
    destruct (Hall _ Hin) as (Hne & Ho & Hi & Ht & Hp & Hd). simpl in *.
    assert (Hk : date g = k).
    { destruct (filter _ cos) as [|y grp] eqn:E; [congruence|].
      assert (Hy : In y (filter (fun x => String.eqb (Types.date x) k) cos))
        by (rewrite E; now left).
      rewrite <- (Hd y) by now left.
      apply filter_In in Hy as [_ Hy]. now apply String.eqb_eq. }
    rewrite Ho. repeat split; auto; congruence.
Qed.

Lemma grouped_keys (cos : list DailyOrder) :
  NoDup (map fst (groupedByDate cos)) /\
  forall o, In o cos -> In (Types.date o) (map fst (groupedByDate cos)).
Proof.
  change (groupedByDate cos)
    with (group_fold Types.date
            (fun o => add_order o (empty_summary (Types.date o)))
            add_order cos).
  destruct (group_fold_spec Types.date
              (fun o => add_order o (empty_summary (Types.date o)))
              add_order (fun _ _ => True))
    with (l := cos) as (Hnd & Hcov & _); auto.
Qed.

(** X1.  The daily summaries of a customer partition the customer's
    orders by date: one summary per date, holding the orders of that date
    in their order, all their line items, unmerged, and the sums of their
    totals and payments. *)
Theorem daily_summaries_partition (getTime : string -> option Z)
        (cos : list DailyOrder) :
  NoDup (map date (dailySummaries getTime cos)) /\
  (forall o, In o cos ->
     exists s, In s (dailySummaries getTime cos) /\
               date s = Types.date o /\ In o (orders s)) /\
  (forall s, In s (dailySummaries getTime cos) ->
     orders s <> [] /\
     orders s = filter (fun o => String.eqb (Types.date o) (date s)) cos /\
     allItems s = flat_map items (orders s) /\
     totalAmount s = sum_by total_amount (orders s) /\
     totalPaid s = sum_by paid_or_0 (orders s) /\
     balance s = totalAmount s - totalPaid s).
Proof.
  destruct (grouped_keys cos) as [Hnd Hcov].
  split; [|split].
  - unfold dailySummaries.
    eapply Permutation_NoDup;
      [apply Permutation_map, Permutation_sym, sort_by_perm|].
    unfold values. rewrite !map_map.
    rewrite (map_ext_in _ fst); [exact Hnd|].
    intros [k g] Hin. simpl. now apply grouped_entry in Hin.
  - intros o Ho. specialize (Hcov o Ho).
    apply in_map_iff in Hcov as ([k g] & Hk & Hin). simpl in Hk. subst k.
    exists (with_balance g).
    destruct (grouped_entry _ _ _ Hin) as (Hd & _ & Hg & _).
    split; [|split].
    + unfold dailySummaries, values. apply sort_by_In, in_map_iff.
      exists g. split; [reflexivity|]. apply in_map_iff. now exists (Types.date o, g).
    + exact Hd.
    + simpl. rewrite Hg. apply filter_In. split; [exact Ho|].
      apply String.eqb_refl.
  - intros s Hs. unfold dailySummaries, values in Hs.
    apply sort_by_In, in_map_iff in Hs as (g & <- & Hg).
    apply in_map_iff in Hg as ([k g'] & Hsnd & Hin). simpl in Hsnd. subst g'.
    destruct (grouped_entry _ _ _ Hin) as (Hd & Hne & Ho & Hi & Ht & Hp).
    simpl. rewrite Hd. repeat split; auto.
Qed.

Lemma groupedByDate_totals (cos : list DailyOrder) :
  sum_by totalAmount (values (groupedByDate cos)) = sum_by total_amount cos /\
  sum_by totalPaid (values (groupedByDate cos)) = sum_by paid_or_0 cos.
Proof.
  change (groupedByDate cos)
    with (group_fold Types.date
            (fun o => add_order o (empty_summary (Types.date o)))
            add_order cos).
  split; apply group_fold_measure; intros; simpl; lia.
Qed.

(** X2.  The statistics of the customer page are the number of the
    customer's orders, the sum of what was paid on them and the sum of
    their totals less what was paid; without a customer identifier they
    are all zero. *)
Theorem stats_totals (getTime : string -> option Z)
        (allOrders : list DailyOrder) (id : option string) :
  (id = None \/ id = Some ""%string ->
   CustomerPage.stats getTime allOrders id =
     {| CustomerPage.totalOrders := 0; CustomerPage.totalSpent := 0;
        CustomerPage.pendingAmount := 0 |}) /\
  (forall i, id = Some i -> i <> ""%string ->
     let mine := filter (fun o => String.eqb (customer_id o) i) allOrders in
     CustomerPage.totalOrders (CustomerPage.stats getTime allOrders id)
       = List.length mine /\
     CustomerPage.totalSpent (CustomerPage.stats getTime allOrders id)
       = sum_by paid_or_0 mine /\
     CustomerPage.pendingAmount (CustomerPage.stats getTime allOrders id)
       = sum_by total_amount mine - sum_by paid_or_0 mine).
Proof.
  split.
  - intros [-> | ->]; reflexivity.
  - intros i -> Hi mine.
    unfold CustomerPage.stats, CustomerPage.ordersOfPage.
    destruct (String.eqb_spec i "") as [E|_]; [contradiction|].
    cbn [CustomerPage.totalOrders CustomerPage.totalSpent
           CustomerPage.pendingAmount].
    set (cos := customerOrders getTime allOrders i).
    assert (Hperm : Permutation cos mine) by apply sort_by_perm.
    assert (Hsum : forall f : DailySummary -> Z,
               (forall g, f (with_balance g) = f g) ->
               sum_by f (dailySummaries getTime cos)
               = sum_by f (values (groupedByDate cos))).
    { intros f Hf. unfold dailySummaries.
      rewrite (sum_by_perm _ _ _ (sort_by_perm _ _)), sum_by_map.
      apply sum_by_ext_in. intros g _. apply Hf. }
    destruct (groupedByDate_totals cos) as [Ht Hp].
    rewrite !Hsum by reflexivity. rewrite Ht, Hp.
    rewrite (sum_by_perm _ _ _ Hperm), (sum_by_perm total_amount _ _ Hperm).
    repeat split. now apply Permutation_length.
Qed.

Lemma allocate_nonempty (s : DailySummary) (amt : num) :
  pendingOrders s <> [] -> nle amt (Fin 0) = false -> allocate s amt <> [].
Proof.
  intros Hne Hn. unfold allocate.
  pose proof (PaymentProofs.pay_loop_nonempty _ amt Hne Hn) as Hupd.
  destruct (pay_loop (pendingOrders s) amt []) as [updates left].
  simpl in Hupd.
  destruct updates as [|u more]; [congruence|].
  cbn [List.length Nat.ltb Nat.leb]. rewrite andb_true_r.
  destruct (ngt left (Fin 0)); [|discriminate].
  intro Hnil. apply (f_equal (map orderId)) in Hnil.
  rewrite PaymentProofs.bump_last_ids in Hnil. discriminate.
Qed.

(** X3.  The page offers to record a payment only on a day whose balance
    is positive; such a day has an order with a positive outstanding
    balance, so every payment saved from the page issues at least one
    update, and every update goes to an order with a positive outstanding
    balance: the fallback to the most recent order is not reached. *)
Theorem offered_payment_goes_to_pending
        (getTime : string -> option Z) (cos : list DailyOrder)
        (s : DailySummary) (amt : num) (confirm : bool)
        (updates : list Update) :
  In s (dailySummaries getTime cos) ->
  CustomerPage.recordPaymentOffered s = true ->
  handleSavePayment (Some s) amt confirm = Saved updates ->
  updates <> [] /\
  forall u, In u updates ->
    exists o, In o (orders s) /\ orderId u = id o /\
              0 < total_amount o - paid_or_0 o.
Proof.
  intros Hs Hoffered Hsaved.
  apply PaymentProofs.saved_inv in Hsaved as (_ & Hpos & _ & ->).
  destruct (daily_summaries_partition getTime cos) as (_ & _ & Hparts).
  destruct (Hparts s Hs) as (_ & _ & _ & Ht & Hp & Hb).
  unfold CustomerPage.recordPaymentOffered in Hoffered.
  apply negb_true_iff, Z.leb_gt in Hoffered.
  assert (Hpend : pendingOrders s <> []).
  { destruct (sum_by_positive outstanding (orders s)) as (o & Ho & Hopos).
    - unfold outstanding. rewrite OverpaymentProofs.sum_by_sub. lia.
    - intro Hnil.
      assert (Hin : In o (pendingOrders s))
        by (apply PaymentProofs.pending_In; now split).
      rewrite Hnil in Hin. contradiction. }
  split; [now apply allocate_nonempty|].
  intros u Hu.
  assert (Hid : In (orderId u) (map id (pendingOrders s)))
    by (apply (PaymentProofs.allocate_ids s amt); auto; now apply in_map).
  apply in_map_iff in Hid as (o & Hid & Ho).
  apply PaymentProofs.pending_In in Ho as [Ho Hopos].
  exists o. unfold outstanding in Hopos. auto.
Qed.






Lemma offered_payment_goes_to_pending_witness :
  [{| orderId := "o1"; newAmountPaid := Fin 100 |};
   {| orderId := "o2"; newAmountPaid := Fin 20 |}] <> [] /\
  forall u,
    In u [{| orderId := "o1"; newAmountPaid := Fin 100 |};
          {| orderId := "o2"; newAmountPaid := Fin 20 |}] ->
    exists o, In o (orders (Examples.two_orders 1 2)) /\ orderId u = id o /\
              0 < total_amount o - paid_or_0 o.
Proof.
  apply (offered_payment_goes_to_pending
           (fun _ => None) [Examples.order1 1; Examples.order2 2]
           (Examples.two_orders 1 2) (Fin 120) false).
  - left. reflexivity.
  - reflexivity.
  - reflexivity.
Defined.

End CustomerPageProofs.

(** ** Daily orders page *)

Module OrdersPageProofs.
Import OrderForm.

Lemma summaryMap_keys (dailyOrders : list DailyOrder) :
  NoDup (map fst (Orders.summaryMap dailyOrders)) /\
  forall o, In o dailyOrders ->
            In (customer_id o) (map fst (Orders.summaryMap dailyOrders)).
Proof.
  change (Orders.summaryMap dailyOrders)
    with (group_fold customer_id
            (fun o => Orders.add_order o (Orders.empty_summary o))
            Orders.add_order dailyOrders).
  destruct (group_fold_spec customer_id
              (fun o => Orders.add_order o (Orders.empty_summary o))
              Orders.add_order (fun _ _ => True))
    with (l := dailyOrders) as (Hnd & Hcov & _); auto.
Qed.

(** X5.  The summaries of the daily orders page hold one entry per
    customer who ordered that day, every order is listed in the entry of
    its customer, and the total of the day is the sum of the totals of
    the orders. *)
Theorem customer_summaries_partition
        (localeCompare : string -> string -> Z)
        (dailyOrders : list DailyOrder) :
  NoDup (map Orders.customerId
             (Orders.customerDailySummaries localeCompare dailyOrders)) /\
  (forall o, In o dailyOrders ->
     exists s,
       In s (Orders.customerDailySummaries localeCompare dailyOrders) /\
       Orders.customerId s = customer_id o /\ In (id o) (Orders.orderIds s)) /\
  dailyTotal (Orders.customerDailySummaries localeCompare dailyOrders)
    = sum_by total_amount dailyOrders.
Proof.
  destruct (summaryMap_keys dailyOrders) as [Hnd Hcov].
  split; [|split].
  - unfold Orders.customerDailySummaries.
    eapply Permutation_NoDup;
      [apply Permutation_map, Permutation_sym, sort_by_perm|].
    unfold values. rewrite !map_map.
    rewrite (map_ext_in _ fst); [exact Hnd|].
    intros [k v] Hin. simpl.
    now destruct (AggregatorProofs.summaryMap_spec _ _ _ Hin) as (_ & Hc & _).
  - intros o Ho. specialize (Hcov o Ho).
    apply in_map_iff in Hcov as ([k v] & Hk & Hin). simpl in Hk. subst k.
    destruct (AggregatorProofs.summaryMap_spec _ _ _ Hin)
      as (_ & Hc & Hi & _).
    exists (Orders.merge_summary localeCompare v). split; [|split].
    + unfold Orders.customerDailySummaries, values.
      apply sort_by_In, in_map, in_map_iff. now exists (customer_id o, v).
    + exact Hc.
    + simpl. rewrite Hi. apply in_map, filter_In.
      split; [exact Ho | apply String.eqb_refl].
  - unfold dailyTotal, Orders.customerDailySummaries.
    rewrite (sum_by_perm _ _ _ (sort_by_perm _ _)),
      CustomerPageProofs.sum_by_map.
    cbn [Orders.merge_summary Orders.totalAmount].
    change (Orders.summaryMap dailyOrders)
      with (group_fold customer_id
              (fun o => Orders.add_order o (Orders.empty_summary o))
              Orders.add_order dailyOrders).
    apply group_fold_measure; intros; simpl; lia.
Qed.

Lemma upsert_length {V : Type} (k : string) (fresh : V) (f : V -> V)
      (acc : list (string * V)) :
  (List.length (upsert k fresh f acc) <= S (List.length acc))%nat.
Proof.
  induction acc as [|[k' v] acc IH]; simpl; [lia|].
  destruct (String.eqb k' k); simpl; lia.
Qed.

Lemma aggregatedItems_length (lines : list OrderItem) :
  (List.length (aggregatedItems lines) <= List.length lines)%nat.
Proof.
  change (aggregatedItems lines)
    with (group_fold item_key (fun i => i) add_item lines).
  induction lines as [|x lines IH] using rev_ind; [simpl; lia|].
  rewrite group_fold_snoc, length_app. simpl.
  pose proof (upsert_length (item_key x) x (add_item x)
                (group_fold item_key (fun i => i) add_item lines)).
  lia.
Qed.

(** X6.  Merging line items loses nothing: the merged rows carry the same
    total quantity and the same total amount as the line items, and
    there are at most as many rows as line items, none only when there
    is no line item. *)
Theorem merge_conserves (localeCompare : string -> string -> Z)
        (lines : list OrderItem) :
  sum_by quantity (mergedItems localeCompare lines) = sum_by quantity lines /\
  sum_by total (mergedItems localeCompare lines) = sum_by total lines /\
  (List.length (mergedItems localeCompare lines) <= List.length lines)%nat /\
  (mergedItems localeCompare lines = [] <-> lines = []).
Proof.
  unfold mergedItems.
  pose proof (sort_by_perm
                (fun a b => localeCompare (product_name a) (product_name b))
                (values (aggregatedItems lines))) as Hperm.
  split; [|split; [|split]].
  - rewrite (sum_by_perm _ _ _ Hperm).
    change (aggregatedItems lines)
      with (group_fold item_key (fun i => i) add_item lines).
    apply group_fold_measure; intros; simpl; lia.
  - rewrite (sum_by_perm _ _ _ Hperm).
    change (aggregatedItems lines)
      with (group_fold item_key (fun i => i) add_item lines).
    apply group_fold_measure; intros; simpl; lia.
  - rewrite (Permutation_length Hperm). unfold values. rewrite length_map.
    apply aggregatedItems_length.
  - split.
    + intro Hnil. rewrite Hnil in Hperm. apply Permutation_nil in Hperm.
      destruct lines as [|x lines]; [reflexivity|].
      destruct (AggregatorProofs.aggregatedItems_spec (x :: lines))
        as (_ & Hcov & _).
      specialize (Hcov x (or_introl eq_refl)).
      unfold values in Hperm. apply map_eq_nil in Hperm.
      rewrite Hperm in Hcov. contradiction.
    + intros ->. reflexivity.
Qed.

Lemma find_by_id (products : list Product.t) (value : string)
      (product : Product.t) :
  find (fun p => String.eqb (Product.id p) value) products = Some product ->
  find (fun p => String.eqb (Product.id p) (Product.id product)) products
    = Some product.
Proof.
  intro H. pose proof (find_some _ _ H) as [_ Hid].
  apply String.eqb_eq in Hid. now rewrite Hid.
Qed.

Lemma reprice_priced (products : list Product.t) (u : OrderItem)
      (p : Product.t) :
  find (fun p => String.eqb (Product.id p) (product_id u)) products = Some p ->
  priced products (reprice products u).
Proof.
  intro H. unfold reprice. rewrite H. exists p. simpl. auto.
Qed.

Lemma update_item_priced (products : list Product.t) (field : Field)
      (item : OrderItem) :
  priced products item -> priced products (update_item products field item).
Proof.
  intros (p & Hfind & Hprice & Htotal). destruct field as [value|value]; simpl.
  - destruct (find (fun q => String.eqb (Product.id q) value) products)
      as [product|] eqn:E.
    + apply reprice_priced with (p := product). simpl.
      now apply find_by_id with (value := value).
    + exists p. auto.
  - now apply reprice_priced with (p := p).
Qed.

Lemma form_step_priced (products : list Product.t)
      (orderItems : list (string * OrderItem)) (action : FormAction) :
  Forall (fun it => priced products (snd it)) orderItems ->
  Forall (fun it => priced products (snd it))
         (form_step products orderItems action).
Proof.
  intro Hall. destruct action as [cid|cid|cid field]; simpl.
  - unfold handleAddOrderItem. destruct products as [|p products]; [exact Hall|].
    constructor; [|exact Hall]. exists p. simpl.
    rewrite String.eqb_refl. repeat split; lia.
  - unfold handleRemoveOrderItem. rewrite Forall_forall in *.
    intros it Hit. apply filter_In in Hit as [Hit _]. auto.
  - unfold handleUpdateOrderItem. rewrite Forall_forall in *.
    intros it Hit. apply in_map_iff in Hit as (old & <- & Hold).
    destruct (negb (String.eqb (fst old) cid)); [auto|].
    simpl. apply update_item_priced. auto.
Qed.

Lemma form_run_priced (products : list Product.t)
      (actions : list FormAction) :
  Forall (fun it => priced products (snd it)) (form_run products actions).
Proof.
  unfold form_run.
  induction actions as [|a actions IH] using rev_ind; [constructor|].
  rewrite fold_left_app. simpl. now apply form_step_priced.
Qed.

(** X7.  Whatever items are added, changed and removed in the form of a
    new order, every item is priced as its product is in the catalogue
    and its total is its quantity times that price; the order that is
    submitted has these items, is not empty, has their sum as its total
    and nothing paid. *)
Theorem submitted_order_is_priced
        (products : list Product.t) (actions : list FormAction)
        (selectedCustomer : option Customer.t) (selectedDate : string)
        (order : NewOrder.t) (items : list OrderItem) :
  In (Orders.AddOrder order items)
     (handleSubmitOrder selectedCustomer (form_run products actions)
                        selectedDate) ->
  items = map snd (form_run products actions) /\
  items <> [] /\
  Forall (priced products) items /\
  NewOrder.total_amount order = sum_by (fun i => quantity i * price i) items /\
  NewOrder.amount_paid order = 0 /\
  NewOrder.date order = selectedDate /\
  (exists c, selectedCustomer = Some c /\
             NewOrder.customer_id order = Customer.id c).
Proof.
  unfold handleSubmitOrder. destruct selectedCustomer as [c|]; [|contradiction].
  pose proof (form_run_priced products actions) as Hall.
  set (fr := form_run products actions) in *.
  destruct (Nat.eqb_spec (List.length fr) 0) as [El|El]; [contradiction|].
  intros [H|[]]. inversion H; subst; clear H.
  cbn [NewOrder.total_amount NewOrder.amount_paid NewOrder.date
         NewOrder.customer_id].
  split; [reflexivity|]. split; [|split; [|split]].
  - intro Hnil. apply map_eq_nil in Hnil. apply El. now rewrite Hnil.
  - rewrite Forall_forall in *. intros i Hi.
    apply in_map_iff in Hi as (x & <- & Hx). auto.
  - rewrite CustomerPageProofs.sum_by_map. apply sum_by_ext_in.
    intros x Hx. rewrite Forall_forall in Hall.
    destruct (Hall x Hx) as (p & _ & Hp & Ht). rewrite Ht, Hp. reflexivity.
  - repeat split. now exists c.
Qed.

Lemma submitted_order_is_priced_witness :
  [{| product_id := "p1"; product_name := "Milk"; quantity := 3;
      unit := "L"; price := 50; total := 150 |}]
    = map snd
        (form_run
           [{| Product.id := "p1"; Product.name := "Milk";
               Product.unit := "L"; Product.price := 50 |}]
           [AddItem "k1"; UpdateItem "k1" (quantity_field 3)]) /\
  [{| product_id := "p1"; product_name := "Milk"; quantity := 3;
      unit := "L"; price := 50; total := 150 |}] <> [] /\
  Forall (priced [{| Product.id := "p1"; Product.name := "Milk";
                     Product.unit := "L"; Product.price := 50 |}])
         [{| product_id := "p1"; product_name := "Milk"; quantity := 3;
             unit := "L"; price := 50; total := 150 |}] /\
  150 = sum_by (fun i => quantity i * price i)
               [{| product_id := "p1"; product_name := "Milk"; quantity := 3;
                   unit := "L"; price := 50; total := 150 |}] /\
  0 = 0 /\
  "2025-01-01"%string = "2025-01-01"%string /\
  (exists c,
      Some {| Customer.id := "c1"; Customer.name := "Asha" |} = Some c /\
      "c1"%string = Customer.id c).
Proof.
  apply (submitted_order_is_priced
           [{| Product.id := "p1"; Product.name := "Milk";
               Product.unit := "L"; Product.price := 50 |}]
           [AddItem "k1"; UpdateItem "k1" (quantity_field 3)]
           (Some {| Customer.id := "c1"; Customer.name := "Asha" |})
           "2025-01-01"
           {| NewOrder.customer_id := "c1"; NewOrder.customer_name := "Asha";
              NewOrder.date := "2025-01-01"; NewOrder.total_amount := 150;
              NewOrder.amount_paid := 0; NewOrder.status := "pending" |}).
  left. reflexivity.
Defined.

(** X8.  Changing a field of an item of the form keeps the number, the
    order and the identifiers of the items and touches only the items
    with the given identifier; a product that is not in the catalogue
    leaves the form as it was; and when the product of the item has left
    the catalogue, a new quantity is stored while price and total stay
    what they were. *)
Theorem update_touches_its_item
        (clientId : string) (field : Field) (products : list Product.t)
        (prev : list (string * OrderItem)) :
  Forall2 (fun old new =>
             fst new = fst old /\ (fst old <> clientId -> new = old))
          prev (handleUpdateOrderItem clientId field products prev) /\
  (forall value,
      field = product_id_field value ->
      find (fun p => String.eqb (Product.id p) value) products = None ->
      handleUpdateOrderItem clientId field products prev = prev) /\
  (forall value item,
      field = quantity_field value ->
      In (clientId, item) prev ->
      find (fun p => String.eqb (Product.id p) (product_id item)) products
        = None ->
      In (clientId,
          {| product_id := product_id item;
             product_name := product_name item;
             quantity := value;
             unit := unit item;
             price := price item;
             total := total item |})
         (handleUpdateOrderItem clientId field products prev)).
Proof.
  split; [|split].
  - unfold handleUpdateOrderItem.
    induction prev as [|[cid item] prev IH]; simpl; constructor; auto.
    destruct (String.eqb_spec cid clientId); simpl; split; auto.
    contradiction.
  - intros value -> Hnone. unfold handleUpdateOrderItem.
    rewrite <- (map_id prev) at 2. apply map_ext.
    intros [cid item]. simpl. rewrite Hnone.
    now destruct (negb (String.eqb cid clientId)).
  - intros value item -> Hin Hnone. unfold handleUpdateOrderItem.
    apply in_map_iff. exists (clientId, item). split; [|exact Hin].
    simpl. rewrite String.eqb_refl. simpl. unfold reprice. simpl.
    now rewrite Hnone.
Qed.


Lemma sum_by_flat_map {A B : Type} (g : A -> list B) (f : B -> Z)
      (l : list A) :
  sum_by f (flat_map g l) = sum_by (fun x => sum_by f (g x)) l.
Proof.
  induction l as [|x l IH]; simpl; rewrite ?sum_by_nil; [reflexivity|].
  rewrite sum_by_app, sum_by_cons, IH. reflexivity.
Qed.


End OrdersPageProofs.

(** ** Statement page: breakdown by day, full report, spreadsheet rows *)

Module StatementPageProofs.





Lemma fold_add_customer (groups : list (list DailyOrder)) :
  forall (rows : list (list FullReport.Cell)) (grand : Z),
    fold_left FullReport.add_customer groups (rows, grand) =
      (rows ++
       flat_map (fun grp =>
                   map (FullReport.item_row (FullReport.first_customer_name grp))
                       (flat_map items grp)
                   ++ [FullReport.customer_total_row
                         (sum_by total (flat_map items grp)); []])
                groups,
       grand + sum_by (fun grp => sum_by total (flat_map items grp)) groups).
Proof.
  induction groups as [|grp groups IH]; intros rows grand; simpl.
  - rewrite app_nil_r, sum_by_nil. f_equal. lia.
  - rewrite IH, sum_by_cons, <- !app_assoc. f_equal. lia.
Qed.

Lemma groups_item_totals (someOrders : list DailyOrder) :
  sum_by (fun grp => sum_by total (flat_map items grp))
         (values (Statement.ordersByCustomer someOrders))
    = sum_by total (flat_map items someOrders).
Proof.
  rewrite OrdersPageProofs.sum_by_flat_map.
  rewrite StatementProofs.ordersByCustomer_fold.
  apply group_fold_measure.
  - intro x. simpl. now rewrite app_nil_r.
  - intros x v. rewrite flat_map_app, sum_by_app. simpl.
    now rewrite app_nil_r.
Qed.

(** X11.  The sheet of a day in the full report: a day without orders
    gives the single cell "No orders found for" that date; otherwise the
    sheet starts with the header, ends with the grand total row, whose
    amount is the sum of the totals of all line items of the orders of
    that day, and holds a row for every line item of these orders, under
    the name of a customer of the same identifier. *)
Theorem full_report_sheet (localeCompare : string -> string -> Z)
        (orders : list DailyOrder) (date : string) :
  let reportDateOrders :=
    filter (fun order => String.eqb (Types.date order) date) orders in
  (reportDateOrders = [] ->
   FullReport.sheet_of_date localeCompare orders date =
     [[FullReport.Str ("No orders found for " ++ date)]]) /\
  (reportDateOrders <> [] ->
   exists body,
     FullReport.sheet_of_date localeCompare orders date =
       FullReport.header :: body ++
       [FullReport.grand_total_row
          (sum_by total (flat_map items reportDateOrders))] /\
     forall o i, In o reportDateOrders -> In i (items o) ->
       exists o', In o' reportDateOrders /\
                  customer_id o' = customer_id o /\
                  In (FullReport.item_row (customer_name o') i) body).
Proof.
  intro rdo. unfold FullReport.sheet_of_date. fold rdo. split.
  - intros ->. reflexivity.
  - intro Hne.
    destruct (Nat.eqb_spec (List.length rdo) 0) as [E|_];
      [destruct rdo; [congruence|discriminate]|].
    rewrite fold_add_customer. cbn [app].
    eexists. split.
    + rewrite (sum_by_perm _ _ _ (sort_by_perm _ _)), groups_item_totals.
      rewrite Z.add_0_l. reflexivity.
    + intros o i Ho Hi.
      destruct (StatementProofs.ordersByCustomer_spec rdo)
        as (_ & Hcov & Hgrp).
      specialize (Hcov o Ho).
      apply in_map_iff in Hcov as ([k g] & Hk & Hin). simpl in Hk. subst k.
      destruct (Hgrp _ _ Hin) as [Hgne Hg].
      assert (Hog : In o g)
        by (rewrite Hg; apply filter_In; split;
            [exact Ho | apply String.eqb_refl]).
      destruct g as [|first g']; [congruence|].
      assert (Hfirst : In first (filter (fun x => String.eqb (customer_id x)
                                                     (customer_id o)) rdo))
        by (rewrite <- Hg; now left).
      apply filter_In in Hfirst as [Hf1 Hf2]. apply String.eqb_eq in Hf2.
      exists first. split; [exact Hf1|]. split; [exact Hf2|].
      apply in_flat_map. exists (first :: g'). split.
      * apply sort_by_In. unfold values. apply in_map_iff.
        now exists (customer_id o, first :: g').
      * apply in_or_app. left. apply in_map.
        apply in_flat_map. now exists o.
Qed.

(** *** The rows sent to the spreadsheet service *)






End StatementPageProofs.

(** ** Box calculator page *)

Module BoxesPageProofs.
Import BoxesPage.

Lemma salesSummary_spec (orders : list DailyOrder) (today : string) :
  let lines :=
    flat_map items
      (filter (fun order => String.eqb (Types.date order) today) orders) in
  NoDup (map fst (salesSummary orders today)) /\
  (forall i, In i lines ->
             In (product_id i) (map fst (salesSummary orders today))) /\
  (forall k v, In (k, v) (salesSummary orders today) ->
     Sales.totalQuantity v
       = sum_by quantity
                (filter (fun i => String.eqb (product_id i) k) lines) /\
     Sales.totalValue v
       = sum_by total
                (filter (fun i => String.eqb (product_id i) k) lines)).
Proof.
  intro lines.
  change (salesSummary orders today)
    with (group_fold product_id (fun i => add_sale i no_sales) add_sale lines).
  destruct (group_fold_spec product_id (fun i => add_sale i no_sales) add_sale
              (fun grp v =>
                 Sales.totalQuantity v = sum_by quantity grp /\
                 Sales.totalValue v = sum_by total grp))
    with (l := lines) as (Hnd & Hcov & Hall).
  - intro x. simpl. rewrite !sum_by_cons, !sum_by_nil. split; lia.
  - intros x g v _ _ [Hq Ht]. simpl.
    rewrite !sum_by_app, !sum_by_cons, !sum_by_nil. split; lia.
  - repeat split; auto; intros; rewrite Forall_forall in Hall;
      now destruct (Hall _ H) as (_ & Hq & Ht).
Qed.

Lemma sales_of_spec (orders : list DailyOrder) (today productId : string) :
  let lines :=
    flat_map items
      (filter (fun order => String.eqb (Types.date order) today) orders) in
  Sales.totalQuantity (sales_of (salesSummary orders today) productId)
    = sum_by quantity
             (filter (fun i => String.eqb (product_id i) productId) lines) /\
  Sales.totalValue (sales_of (salesSummary orders today) productId)
    = sum_by total
             (filter (fun i => String.eqb (product_id i) productId) lines).
Proof.
  intro lines.
  destruct (salesSummary_spec orders today) as (Hnd & Hcov & Hent).
  fold lines in Hcov, Hent.
  unfold sales_of.
  destruct (find _ (salesSummary orders today)) as [[k v]|] eqn:E.
  - apply find_some in E as [Hin Hk]. simpl in Hk.
    apply String.eqb_eq in Hk. subst k. simpl. now apply Hent.
  - assert (Hnil : filter (fun i => String.eqb (product_id i) productId) lines
                   = []).
    { destruct (filter _ lines) as [|i rest] eqn:F; [reflexivity|].
      assert (Hi : In i (filter (fun i => String.eqb (product_id i) productId)
                                lines)) by (rewrite F; now left).
      apply filter_In in Hi as [Hi Hk]. apply String.eqb_eq in Hk.
      specialize (Hcov i Hi). apply in_map_iff in Hcov as ([k v] & Hfst & Hin).
      simpl in Hfst. pose proof (find_none _ _ E _ Hin) as Hno.
      simpl in Hno. rewrite Hfst, Hk, String.eqb_refl in Hno. discriminate. }
    rewrite Hnil. simpl. now rewrite sum_by_nil.
Qed.

(** X13.  The box page lists every product of the catalogue once, sold
    today or not, with the quantity and the value of the line items of
    today's orders that carry its identifier: zero for a product without
    sales, and line items of unknown products count nowhere. *)
Theorem product_summary_rows (localeCompare : string -> string -> Z)
        (orders : list DailyOrder) (products : list Product.t)
        (today : string) :
  let lines :=
    flat_map items
      (filter (fun order => String.eqb (Types.date order) today) orders) in
  let rows := productSummary localeCompare orders products today in
  Permutation (map (fun r => (productId r, name r)) rows)
              (map (fun p => (Product.id p, Product.name p)) products) /\
  (forall r, In r rows ->
     totalQuantity r
       = sum_by quantity
                (filter (fun i => String.eqb (product_id i) (productId r))
                        lines) /\
     totalValue r
       = sum_by total
                (filter (fun i => String.eqb (product_id i) (productId r))
                        lines)) /\
  (forall r, In r rows ->
     (forall i, In i lines -> product_id i <> productId r) ->
     totalQuantity r = 0 /\ totalValue r = 0).
Proof.
  intros lines rows.
  assert (Hrows : forall r, In r rows ->
            totalQuantity r
              = sum_by quantity
                  (filter (fun i => String.eqb (product_id i) (productId r))
                          lines) /\
            totalValue r
              = sum_by total
                  (filter (fun i => String.eqb (product_id i) (productId r))
                          lines)).
  { intros r Hr. unfold rows, productSummary in Hr.
    apply sort_by_In, in_map_iff in Hr as (p & <- & _). simpl.
    apply sales_of_spec. }
  split; [|split; [exact Hrows|]].
  - unfold rows, productSummary.
    rewrite (Permutation_map _ (sort_by_perm _ _)), map_map. reflexivity.
  - intros r Hr Hnone. destruct (Hrows r Hr) as [-> ->].
    assert (Hnil : filter (fun i => String.eqb (product_id i) (productId r))
                          lines = []).
    { destruct (filter _ lines) as [|i rest] eqn:F; [reflexivity|].
      assert (Hi : In i (filter (fun i => String.eqb (product_id i)
                                                     (productId r)) lines))
        by (rewrite F; now left).
      apply filter_In in Hi as [Hi Hk]. apply String.eqb_eq in Hk.
      now apply Hnone in Hi. }
    rewrite Hnil. now rewrite !sum_by_nil.
Qed.

Lemma lookup_after_set (k : string) (v : Z) (acc : list (string * Z)) :
  SheetSync.lookup_or_0 (upsert k v (fun _ => v) acc) k = v.
Proof.
  unfold SheetSync.lookup_or_0.
  induction acc as [|[k' v'] acc IH]; simpl.
  - now rewrite String.eqb_refl.
  - destruct (String.eqb_spec k' k) as [->|E]; simpl.
    + now rewrite String.eqb_refl.
    + destruct (String.eqb_spec k' k); [contradiction|exact IH].
Qed.

Lemma lookup_elsewhere (k other : string) (v : Z) (acc : list (string * Z)) :
  other <> k ->
  SheetSync.lookup_or_0 (upsert k v (fun _ => v) acc) other
    = SheetSync.lookup_or_0 acc other.
Proof.
  intro Hne. unfold SheetSync.lookup_or_0.
  induction acc as [|[k' v'] acc IH]; simpl.
  - destruct (String.eqb_spec k other); [congruence|reflexivity].
  - destruct (String.eqb_spec k' k) as [->|E]; simpl.
    + destruct (String.eqb_spec k other); [congruence|reflexivity].
    + destruct (String.eqb_spec k' other); [reflexivity|exact IH].
Qed.

(** X14.  Setting the pieces per box of a product: what is read back for
    that product is the number entered, or zero when the entry is no
    number or is negative; it is never negative; the other products keep
    their setting; and the calculation of the product is left out exactly
    when the entry is no number or is not positive. *)
Theorem config_change_read_back (productId : string) (pieces : option Z)
        (prev : list (string * Z)) (totalQuantity : Z) :
  piecesPerBoxOf (handleConfigChange productId pieces prev) productId
    = stored_pieces pieces /\
  0 <= stored_pieces pieces /\
  (forall n, pieces = Some n -> 0 <= n -> stored_pieces pieces = n) /\
  (forall other, other <> productId ->
     piecesPerBoxOf (handleConfigChange productId pieces prev) other
       = piecesPerBoxOf prev other) /\
  (Boxes.calculateBoxNeeds totalQuantity
     (piecesPerBoxOf (handleConfigChange productId pieces prev) productId)
     = None
   <-> pieces = None \/ exists n, pieces = Some n /\ n <= 0).
Proof.
  unfold piecesPerBoxOf, handleConfigChange.
  rewrite lookup_after_set.
  split; [reflexivity|]. split; [|split; [|split]].
  - destruct pieces as [n|]; simpl; [|lia].
    destruct (Z.ltb_spec n 0); lia.
  - intros n -> Hn. simpl. destruct (Z.ltb_spec n 0); lia.
  - intros other Hne. now apply lookup_elsewhere.
  - unfold Boxes.calculateBoxNeeds.
    destruct pieces as [n|]; simpl.
    + destruct (Z.ltb_spec n 0) as [Hn|Hn].
      * simpl. split; [intros _; right; exists n; split; [reflexivity|lia]
                      | reflexivity].
      * destruct (Z.leb_spec n 0) as [Hle|Hgt].
        -- split; [intros _; right; exists n; split; [reflexivity|lia]
                  | reflexivity].
        -- split; [discriminate|].
           intros [H | (m & H & Hm)]; [discriminate|].
           injection H as <-. lia.
    + split; [intros _; now left | reflexivity].
Qed.

(** X15.  Whenever the calculator gives a result, for any quantity, the
    pieces per box are positive, the quantity plus the pieces needed is
    a whole number of boxes and nothing is needed exactly when nothing
    remains; for a quantity that is not negative, the pieces needed are
    fewer than a box and complete the box that was begun. *)
Theorem needed_pieces_complete_box (totalQuantity piecesPerBox : Z)
        (r : Boxes.BoxNeeds) :
  Boxes.calculateBoxNeeds totalQuantity piecesPerBox = Some r ->
  0 < piecesPerBox /\
  (totalQuantity + Boxes.neededForNextBox r) mod piecesPerBox = 0 /\
  (Boxes.neededForNextBox r = 0 <-> Boxes.remainingPieces r = 0) /\
  Z.abs (Boxes.remainingPieces r) < piecesPerBox /\
  (0 <= totalQuantity ->
   0 <= Boxes.neededForNextBox r < piecesPerBox /\
   (totalQuantity + Boxes.neededForNextBox r) / piecesPerBox
     = Boxes.fullBoxes r + (if Boxes.remainingPieces r =? 0 then 0 else 1)).
Proof.
  unfold Boxes.calculateBoxNeeds.
  destruct (Z.leb_spec piecesPerBox 0) as [Hle|Hp]; [discriminate|].
  intro H. injection H as <-. simpl.
  pose proof (Z.quot_rem' totalQuantity piecesPerBox) as Hqr.
  pose proof (Z.rem_bound_abs totalQuantity piecesPerBox ltac:(lia)) as Hab.
  set (rm := Z.rem totalQuantity piecesPerBox) in *.
  set (qt := Z.quot totalQuantity piecesPerBox) in *.
  split; [exact Hp|]. split; [|split; [|split]].
  - destruct (Z.eqb_spec rm 0) as [E|E].
    + replace (totalQuantity + 0) with (qt * piecesPerBox) by lia.
      apply Z.mod_mul. lia.
    + replace (totalQuantity + (piecesPerBox - rm))
        with ((qt + 1) * piecesPerBox) by lia.
      apply Z.mod_mul. lia.
  - destruct (Z.eqb_spec rm 0); lia.
  - lia.
  - intro Hq.
    assert (Hrm : rm = totalQuantity mod piecesPerBox)
      by (apply Z.rem_mod_nonneg; lia).
    pose proof (Z.mod_pos_bound totalQuantity piecesPerBox Hp) as Hb.
    pose proof (Z.div_mod totalQuantity piecesPerBox ltac:(lia)) as Hdm.
    destruct (Z.eqb_spec rm 0) as [E|E].
    + split; [lia|]. rewrite Z.add_0_r. lia.
    + split; [lia|].
      replace (totalQuantity + (piecesPerBox - rm))
        with ((totalQuantity / piecesPerBox + 1) * piecesPerBox) by lia.
      rewrite Z.div_mul by lia. reflexivity.
Qed.

Lemma needed_pieces_complete_box_witness :
  0 < 5 /\
  (23 + 2) mod 5 = 0 /\
  (2 = 0 <-> 3 = 0) /\
  Z.abs 3 < 5 /\
  (0 <= 23 -> 0 <= 2 < 5 /\ (23 + 2) / 5 = 4 + (if 3 =? 0 then 0 else 1)).
Proof.
  apply (needed_pieces_complete_box 23 5
           {| Boxes.fullBoxes := 4; Boxes.remainingPieces := 3;
              Boxes.neededForNextBox := 2 |}).
  reflexivity.
Defined.
End BoxesPageProofs.

(** ** Order of the rows sent, and merging twice *)

Module OrderingProofs.

Lemma ltb_neither (a b : string) :
  String.ltb a b = false -> String.ltb b a = false -> a = b.
Proof.
  unfold String.ltb. rewrite (String.compare_antisym a b).
  destruct (String.compare b a) eqn:E; simpl; try discriminate.
  intros _ _. symmetry. now apply String.compare_eq_iff.
Qed.

Lemma by_customer_then_date_total (getTime : string -> option Z)
      (a b : SheetSync.DaySummary) :
  SheetSync.by_customer_then_date getTime a b <= 0 \/
  SheetSync.by_customer_then_date getTime b a <= 0.
Proof.
  unfold SheetSync.by_customer_then_date, by_time.
  destruct (String.ltb (SheetSync.customerName a) (SheetSync.customerName b));
    [left; lia|].
  destruct (String.ltb (SheetSync.customerName b) (SheetSync.customerName a));
    [right; lia|].
  destruct (getTime (SheetSync.date a)), (getTime (SheetSync.date b)); lia.
Qed.

Lemma Sorted_map {A B : Type} (R : A -> A -> Prop) (R' : B -> B -> Prop)
      (f : A -> B) (l : list A) :
  (forall x y, R x y -> R' (f x) (f y)) ->
  Sorted R l -> Sorted R' (map f l).
Proof.
  intro HR. induction 1 as [|x l Hs IH Hd]; simpl; constructor; auto.
  destruct Hd; simpl; constructor. auto.
Qed.

(** X16.  The rows sent to the spreadsheet are grouped by customer name
    in ascending order and, within one name, follow the dates: of two
    consecutive rows, the first has the smaller name, or the same name
    and a date that is not later. *)
Theorem sync_rows_order (getTime : string -> option Z)
        (filtered : list DailyOrder) :
  Sorted (fun a b =>
            String.ltb (SheetSync.Customer_Name a) (SheetSync.Customer_Name b)
              = true \/
            (SheetSync.Customer_Name a = SheetSync.Customer_Name b /\
             by_time getTime (SheetSync.Date a) (SheetSync.Date b) <= 0))
         (SheetSync.dataToSync getTime filtered).
Proof.
  unfold SheetSync.dataToSync.
  apply Sorted_map
    with (R := fun a b => SheetSync.by_customer_then_date getTime a b <= 0).
  - intros x y. unfold SheetSync.by_customer_then_date. simpl.
    destruct (String.ltb (SheetSync.customerName x) (SheetSync.customerName y))
      eqn:E1; [now left|].
    destruct (String.ltb (SheetSync.customerName y) (SheetSync.customerName x))
      eqn:E2; [lia|].
    intro H. right. split; [now apply ltb_neither | exact H].
  - apply sort_by_sorted. apply by_customer_then_date_total.
Qed.

Lemma upsert_new {V : Type} (k : string) (fresh : V) (f : V -> V)
      (acc : list (string * V)) :
  ~ In k (map fst acc) -> upsert k fresh f acc = acc ++ [(k, fresh)].
Proof.
  induction acc as [|[k' v] acc IH]; simpl; [reflexivity|].
  intro Hn. destruct (String.eqb_spec k' k) as [E|_]; [tauto|].
  rewrite IH; tauto.
Qed.

Lemma group_fold_distinct {A V : Type} (key : A -> string) (fresh : A -> V)
      (f : A -> V -> V) (l : list A) :
  NoDup (map key l) ->
  group_fold key fresh f l = map (fun x => (key x, fresh x)) l.
Proof.
  induction l as [|x l IH] using rev_ind; [reflexivity|].
  rewrite map_app. simpl. intro Hnd.
  assert (Hl : NoDup (map key l)) by now apply NoDup_app_remove_r in Hnd.
  rewrite group_fold_snoc, IH, map_app by exact Hl. simpl.
  apply upsert_new. rewrite map_map. simpl.
  apply NoDup_remove_2 in Hnd. now rewrite app_nil_r in Hnd.
Qed.

Lemma sort_sorted {A : Type} (cmp : A -> A -> Z) (l : list A) :
  Sorted (fun a b => cmp a b <= 0) l -> sort_by cmp l = l.
Proof.
  induction 1 as [|x l Hs IH Hd]; [reflexivity|].
  change (sort_by cmp (x :: l)) with (sort_insert cmp x (sort_by cmp l)).
  rewrite IH.
  destruct Hd as [|y l Hxy]; simpl; [reflexivity|].
  now replace (cmp x y <=? 0) with true by (symmetry; now apply Z.leb_le).
Qed.

(** X17.  Merging is stable: merging rows that are themselves the result
    of a merge gives the same rows, in the same order, so that the
    consolidated order of an edit shows what the edit form showed. *)
Theorem merging_twice (localeCompare : string -> string -> Z)
        (lines : list OrderItem) :
  (forall a b, localeCompare a b <= 0 \/ localeCompare b a <= 0) ->
  mergedItems localeCompare (mergedItems localeCompare lines)
    = mergedItems localeCompare lines.
Proof.
  intro Htotal.
  set (rows := mergedItems localeCompare lines).
  assert (Hsorted : Sorted (fun a b => localeCompare (product_name a)
                                                     (product_name b) <= 0)
                           rows).
  { unfold rows, mergedItems.
    apply (sort_by_sorted
             (fun a b => localeCompare (product_name a) (product_name b))).
    intros a b. apply Htotal. }
  assert (Hkeys : NoDup (map item_key rows)).
  { destruct (AggregatorProofs.aggregatedItems_spec lines) as (Hnd & _).
    unfold rows, mergedItems.
    eapply Permutation_NoDup;
      [apply Permutation_map, Permutation_sym, sort_by_perm|].
    unfold values. rewrite map_map.
    rewrite (map_ext_in _ fst); [exact Hnd|].
    intros [k r] Hin. simpl.
    now apply AggregatorProofs.row_key in Hin. }
  unfold mergedItems at 1.
  change (aggregatedItems rows)
    with (group_fold item_key (fun i => i) add_item rows).
  rewrite (group_fold_distinct _ _ _ _ Hkeys).
  unfold values. rewrite map_map. simpl. rewrite map_id.
  now apply sort_sorted.
Qed.

Lemma merging_twice_witness :
  mergedItems Examples.codeUnitCompare
    (mergedItems Examples.codeUnitCompare
       [Examples.milk 2 50; Examples.curd 1 80;
        Examples.milk 1 55; Examples.milk 3 50])
  = mergedItems Examples.codeUnitCompare
      [Examples.milk 2 50; Examples.curd 1 80;
       Examples.milk 1 55; Examples.milk 3 50].
Proof.
  apply (merging_twice Examples.codeUnitCompare).
  exact AggregatorProofs.codeUnitCompare_total.
Defined.
End OrderingProofs.
